(** * The jsui Drawer, IconButton and NavBar components

  A shallow embedding of [Drawer.tsx], [IconButton.tsx] and [NavBar.tsx].
  Each function component is a function from its props (and, for the
  Drawer, the contents of its hook cells) to the element tree it returns.
  Event handlers are computations in a small state-and-exception monad,
  so that a caller's callback which throws can be followed through
  [handleDrawerToggle]. *)

From Stdlib Require Import String List Bool ZArith Lia.
Import ListNotations.
Open Scope string_scope.

(** ** JavaScript values the components rely on *)

Module Js.

(** A property of a props object.  [Absent]: the key is not in the object;
    [Undefined]: the key is there and holds [undefined]; [Given a]: the key
    holds the value [a].  Destructuring and property reads do not tell the
    first two apart, object spread does. *)
Inductive Opt (A : Type) : Type :=
| Absent
| Undefined
| Given (a : A).
Arguments Absent {A}.
Arguments Undefined {A}.
Arguments Given {A} a.

(** [props.k]: what reading the property yields ([None] is [undefined]). *)
Definition get {A} (o : Opt A) : option A :=
  match o with
  | Given a => Some a
  | Absent | Undefined => None
  end.

(** [{ k = d }] in a destructuring pattern: the default replaces
    [undefined], whether the key is missing or not. *)
Definition or_default {A} (d : A) (o : Opt A) : A :=
  match get o with
  | Some a => a
  | None => d
  end.

(** The option was left out by the caller. *)
Definition omitted {A} (o : Opt A) : Prop := get o = None.

(** Key [k] of [{ k: base, ...bag }]: an own key of the bag wins, even when
    it holds [undefined]. *)
Definition spread {A} (base bag : Opt A) : Opt A :=
  match bag with
  | Absent => base
  | Undefined | Given _ => bag
  end.

(** The key is an own property of the object. *)
Definition has_key {A} (o : Opt A) : bool :=
  match o with
  | Absent => false
  | Undefined | Given _ => true
  end.

Definition map_given {A B} (f : A -> B) (o : Opt A) : Opt B :=
  match o with
  | Absent => Absent
  | Undefined => Undefined
  | Given a => Given (f a)
  end.

(** Truthiness of a [string | undefined]: the empty string is falsy. *)
Definition truthy (o : option string) : bool :=
  match o with
  | Some s => negb (String.eqb s "")
  | None => false
  end.

(** How a call ends: it returns, or it throws. *)
Inductive Completion (E A : Type) : Type :=
| Normal (a : A)
| Throw (e : E).
Arguments Normal {E A} a.
Arguments Throw {E A} e.

(** A computation over a mutable store [S].  What was written before a
    throw stays written. *)
Definition Eff (S E A : Type) : Type := S -> S * Completion E A.

Definition ret {S E A} (a : A) : Eff S E A := fun s => (s, Normal a).

Definition bind {S E A B} (m : Eff S E A) (k : A -> Eff S E B) : Eff S E B :=
  fun s =>
    match m s with
    | (s', Normal a) => k a s'
    | (s', Throw e) => (s', Throw e)
    end.

Definition modify {S E} (f : S -> S) : Eff S E unit :=
  fun s => (f s, Normal tt).

(** Run a computation over a part of the store, given how to read the part
    and how to write it back. *)
Definition zoom {S T E A} (rd : S -> T) (wr : T -> S -> S)
    (m : Eff T E A) : Eff S E A :=
  fun s => let (t', c) := m (rd s) in (wr t' s, c).

(** [f?.()] *)
Definition call_opt {S E} (f : option (Eff S E unit)) : Eff S E unit :=
  match f with
  | Some g => g
  | None => ret tt
  end.

End Js.

Import Js.

Declare Scope eff_scope.
Delimit Scope eff_scope with eff.
Notation "m1 ;; m2" := (Js.bind m1 (fun _ => m2))
(at level 61, right associativity) : eff_scope.

(** [React.ReactNode], as far as the components tell nodes apart: they pass
  nodes through and build two icons of their own. *)
Inductive ReactNode : Type :=
| Text (s : string)
| CloseIcon
| MenuIcon
| Element (key : nat).

(** ** IconButton.tsx *)

Module IconButton.

Inductive Variant := Outlined | TextVariant | Contained.
Inductive Color := Primary | Secondary | Error | Info | Success | Warning.
Inductive Size := Small | Medium | Large.

(** [IconButtonProps]; [F] is the type of the [() => void] functions. *)
Record Props (F : Type) : Type := {
  variant : Opt Variant;
  color : Opt Color;
  content : Opt ReactNode;
  startIcon : Opt ReactNode;
  endIcon : Opt ReactNode;
  loading : Opt bool;
  disabled : Opt bool;
  onClick : Opt F;
  size : Opt Size;
  aria_label : Opt string
}.
Arguments variant {F} _.
Arguments color {F} _.
Arguments content {F} _.
Arguments startIcon {F} _.
Arguments endIcon {F} _.
Arguments loading {F} _.
Arguments disabled {F} _.
Arguments onClick {F} _.
Arguments size {F} _.
Arguments aria_label {F} _.

(** [{ ...base, ...bag }], key by key. *)
Definition spread_props {F} (base bag : Props F) : Props F :=
  {| variant := spread (variant base) (variant bag);
     color := spread (color base) (color bag);
     content := spread (content base) (content bag);
     startIcon := spread (startIcon base) (startIcon bag);
     endIcon := spread (endIcon base) (endIcon bag);
     loading := spread (loading base) (loading bag);
     disabled := spread (disabled base) (disabled bag);
     onClick := spread (onClick base) (onClick bag);
     size := spread (size base) (size bag);
     aria_label := spread (aria_label base) (aria_label bag) |}.

(** Spreading [undefined] adds no key. *)
Definition spread_opt {F} (base : Props F) (bag : option (Props F)) : Props F :=
  match bag with
  | Some b => spread_props base b
  | None => base
  end.

Definition map_onClick {F G} (f : F -> G) (p : Props F) : Props G :=
  {| variant := variant p; color := color p; content := content p;
     startIcon := startIcon p; endIcon := endIcon p; loading := loading p;
     disabled := disabled p; onClick := map_given f (onClick p);
     size := size p; aria_label := aria_label p |}.

(** The MUI [<Button>] element the component returns. *)
Record Button (F : Type) : Type := {
  btn_variant : Variant;
  btn_startIcon : option ReactNode;
  btn_endIcon : option ReactNode;
  btn_color : Color;
  btn_disabled : bool;
  btn_loading : bool;
  btn_onClick : option F;
  btn_size : Size;
  btn_aria_label : option string;
  btn_children : option ReactNode
}.
Arguments btn_variant {F} _.
Arguments btn_startIcon {F} _.
Arguments btn_endIcon {F} _.
Arguments btn_color {F} _.
Arguments btn_disabled {F} _.
Arguments btn_loading {F} _.
Arguments btn_onClick {F} _.
Arguments btn_size {F} _.
Arguments btn_aria_label {F} _.
Arguments btn_children {F} _.

Definition IconButton {F} (props : Props F) : Button F :=
  let variant := or_default Contained (variant props) in
  let startIcon := get (startIcon props) in
  let endIcon := get (endIcon props) in
  let content := get (content props) in
  let color := or_default Primary (color props) in
  let loading := or_default false (loading props) in
  let disabled := or_default false (disabled props) in
  let onClick := get (onClick props) in
  let size := or_default Medium (size props) in
  let ariaLabel := get (aria_label props) in
  {| btn_variant := variant;
     btn_startIcon := startIcon;
     btn_endIcon := endIcon;
     btn_color := color;
     btn_disabled := disabled;
     btn_loading := loading;
     btn_onClick := onClick;
     btn_size := size;
     btn_aria_label := ariaLabel;
     btn_children := content |}.

(** MUI's [<Button>] is a disabled button when [disabled] or [loading] is
    true: the props above document [loading] as "shows a loading spinner and
    disables the button" and [disabled] as "the button is disabled and cannot
    be clicked". *)
Definition btn_inert {F} (b : Button F) : bool :=
  btn_disabled b || btn_loading b.

(** A click on the button: a disabled button runs nothing, an enabled one
    runs its [onClick], if it has one. *)
Definition click {S E} (b : Button (Eff S E unit)) : Eff S E unit :=
  if btn_inert b then ret tt else call_opt (btn_onClick b).

End IconButton.

(** ** Drawer.tsx *)

Module Drawer.

Inductive Position := Left | Right | Top | Bottom.

(** [===] on two positions. *)
Definition Position_eqb (a b : Position) : bool :=
  match a, b with
  | Left, Left | Right, Right | Top, Top | Bottom, Bottom => true
  | _, _ => false
  end.

(** [number | string].  The component hands the value on and never computes
    with it. *)
Inductive Dimension := Num (n : Z) | Css (s : string).

(** The cells React keeps for one mounted Drawer: the [useState] cell, the
    [useId] value, and the dependency array [[open]] the effect last ran
    with ([None] before the first commit). *)
Record Hooks : Type := {
  drawerOpen : bool;
  titleId : string;
  syncDeps : option bool
}.

(** The [useState] cell after [setDrawerOpen(b)]. *)
Definition write_drawerOpen (b : bool) (h : Hooks) : Hooks :=
  {| drawerOpen := b; titleId := titleId h; syncDeps := syncDeps h |}.

(** [drawerSize]: an object with a [width] key or a [height] key. *)
Record SizeSx : Type := {
  size_width : option Dimension;
  size_height : option Dimension
}.

(** [sx] of the outer [<Box>]: [{ ...drawerSize, p: 2 }]. *)
Record BoxSx : Type := {
  sx_width : option Dimension;
  sx_height : option Dimension;
  sx_p : Z
}.

Record PaperProps : Type := {
  role : string;
  aria_labelledby : option string;
  aria_label : option string
}.

(** [<Typography variant="h6" component="h2" id=...>text</Typography>] *)
Record Heading : Type := {
  heading_id : string;
  heading_text : string
}.

Section Component.

(** The caller's side: whatever state the callbacks act on, and whatever
    they may throw. *)
Variables World Exn : Type.

(** A caller's [() => void]. *)
Definition Callback : Type := Eff World Exn unit.

(** [DrawerProps] *)
Record Props : Type := {
  open : Opt bool;
  onClose : Opt Callback;
  onOpen : Opt Callback;
  title : Opt string;
  content : Opt ReactNode;
  openButton : Opt bool;
  closeButton : Opt bool;
  openButtonProps : Opt (IconButton.Props Callback);
  position : Opt Position;
  width : Opt Dimension
}.

(** What a handler of the component can touch. *)
Record Store : Type := {
  hooks : Hooks;
  world : World
}.

(** A function created during a render of the Drawer. *)
Definition Handler : Type := Eff Store Exn unit.

(** A caller's callback, called from inside the component: it sees the
    caller's world only. *)
Definition caller (f : Callback) : Handler :=
  zoom world (fun w s => {| hooks := hooks s; world := w |}) f.

(** The setter of the [useState] cell.  The cell is read again at the next
    render only, so writing it at once is the same as queueing the update. *)
Definition setDrawerOpen (b : bool) : Handler :=
  modify (fun s =>
    {| hooks := write_drawerOpen b (hooks s); world := world s |}).

(** The destructuring defaults of the parameter list. *)
Definition open_of (props : Props) : bool := or_default false (open props).
Definition openButton_of (props : Props) : bool := or_default true (openButton props).
Definition closeButton_of (props : Props) : bool := or_default true (closeButton props).
Definition position_of (props : Props) : Position := or_default Left (position props).
Definition width_of (props : Props) : Dimension := or_default (Num 400) (width props).

Definition handleDrawerToggle (props : Props) (isOpen : bool) : Handler :=
  (setDrawerOpen isOpen ;;
   if isOpen
   then call_opt (option_map caller (get (onOpen props)))
   else call_opt (option_map caller (get (onClose props))))%eff.

Definition isHorizontal (position : Position) : bool :=
  Position_eqb position Left || Position_eqb position Right.

Definition drawerSize (position : Position) (width : Dimension) : SizeSx :=
  if isHorizontal position
  then {| size_width := Some width; size_height := None |}
  else {| size_width := None; size_height := Some width |}.

(** The [<MuiDrawer>] element with what the component puts inside it. *)
Record MuiDrawer : Type := {
  mui_anchor : Position;
  mui_open : bool;
  mui_onClose : Handler;
  mui_PaperProps : PaperProps;
  box_sx : BoxSx;
  heading : option Heading;
  closeControl : option (IconButton.Button Handler);
  body : option ReactNode
}.

(** The fragment the component returns. *)
Record View : Type := {
  trigger : option (IconButton.Button Handler);
  panel : MuiDrawer
}.

(** The props object of the trigger:
    [{ onClick: ..., "aria-label": "Open drawer", ...openButtonProps }]. *)
Definition triggerProps (props : Props) : IconButton.Props Handler :=
  IconButton.spread_opt
    {| IconButton.variant := Absent;
       IconButton.color := Absent;
       IconButton.content := Absent;
       IconButton.startIcon := Absent;
       IconButton.endIcon := Absent;
       IconButton.loading := Absent;
       IconButton.disabled := Absent;
       IconButton.onClick := Given (handleDrawerToggle props true);
       IconButton.size := Absent;
       IconButton.aria_label := Given "Open drawer" |}
    (option_map (IconButton.map_onClick caller) (get (openButtonProps props))).

(** The props object of the close button. *)
Definition closeProps (props : Props) : IconButton.Props Handler :=
  {| IconButton.variant := Given IconButton.TextVariant;
     IconButton.color := Absent;
     IconButton.content := Given CloseIcon;
     IconButton.startIcon := Absent;
     IconButton.endIcon := Absent;
     IconButton.loading := Absent;
     IconButton.disabled := Absent;
     IconButton.onClick := Given (handleDrawerToggle props false);
     IconButton.size := Absent;
     IconButton.aria_label := Given "Close drawer" |}.

(** One render of the function component, reading the hook cells [h]. *)
Definition Drawer (props : Props) (h : Hooks) : View :=
  let title := get (title props) in
  let content := get (content props) in
  let openButton := openButton_of props in
  let closeButton := closeButton_of props in
  let position := position_of props in
  let width := width_of props in
  let drawerOpen := drawerOpen h in
  let titleId := titleId h in
  let drawerSize := drawerSize position width in
  {| trigger :=
       if openButton
       then Some (IconButton.IconButton (triggerProps props))
       else None;
     panel :=
       {| mui_anchor := position;
          mui_open := drawerOpen;
          mui_onClose := handleDrawerToggle props false;
          mui_PaperProps :=
            {| role := "dialog";
               aria_labelledby := if truthy title then Some titleId else None;
               aria_label := if truthy title then None else Some "Drawer" |};
          box_sx :=
            {| sx_width := size_width drawerSize;
               sx_height := size_height drawerSize;
               sx_p := 2 |};
          heading :=
            if truthy title
            then option_map
                   (fun t => {| heading_id := titleId; heading_text := t |})
                   title
            else None;
          closeControl :=
            if closeButton
            then Some (IconButton.IconButton (closeProps props))
            else None;
          body := content |} |}.

(** *** React around the component *)

(** The body of [useEffect(() => { setDrawerOpen(open) }, [open])]. *)
Definition syncEffect (props : Props) : Handler :=
  setDrawerOpen (open_of props).

(** React compares the dependency array [[open]] with the one of the previous
    commit; there is none at the first commit. *)
Definition depsChanged (prev : option bool) (open : bool) : bool :=
  match prev with
  | Some b => negb (Bool.eqb b open)
  | None => true
  end.

Definition recordDeps (open : bool) : Handler :=
  modify (fun s =>
    {| hooks := {| drawerOpen := drawerOpen (hooks s);
                   titleId := titleId (hooks s);
                   syncDeps := Some open |};
       world := world s |}).

(** After a commit React runs the effect if its dependencies changed. *)
Definition commitEffects (props : Props) : Handler :=
  fun s =>
    if depsChanged (syncDeps (hooks s)) (open_of props)
    then (syncEffect props ;; recordDeps (open_of props))%eff s
    else (s, Normal tt).

(** Mounting: [useState(open)] and [useId()] fill the cells ([id] is the
    identifier React hands out), then the first commit runs the effect. *)
Definition mount (id : string) (props : Props) (w : World) : Store :=
  fst (commitEffects props
         {| hooks := {| drawerOpen := open_of props;
                       titleId := id;
                       syncDeps := None |};
            world := w |}).

(** A render of the mounted instance with the props the parent passes now,
    up to the point where the effect has run. *)
Definition rerender (props : Props) (s : Store) : Store :=
  fst (commitEffects props s).

(** What is on screen for store [s] under [props]. *)
Definition view (props : Props) (s : Store) : View := Drawer props (hooks s).

(** The two requests of the component. *)
Inductive Request := RequestOpen | RequestClose.

Definition wants_open (r : Request) : bool :=
  match r with
  | RequestOpen => true
  | RequestClose => false
  end.

Definition request (props : Props) (r : Request) : Handler :=
  handleDrawerToggle props (wants_open r).

(** Requests arrive as separate events: an exception leaves the handler of
    its own event, React renders again with the props it has, and the next
    event is handled all the same. *)
Fixpoint requests (props : Props) (rs : list Request) (s : Store) : Store :=
  match rs with
  | [] => s
  | r :: rs' => requests props rs' (rerender props (fst (request props r s)))
  end.

(** The notification a request fires: [onOpen] for an open request,
    [onClose] for a close request, nothing when the caller gave none. *)
Definition notification (props : Props) (isOpen : bool) : Callback :=
  call_opt (get (if isOpen then onOpen props else onClose props)).

(** The fold of section 8 of the specification: each request replaces the
    visibility, starting from the seed. *)
Definition fold_requests (seed : bool) (rs : list Request) : bool :=
  fold_left (fun _ r => wants_open r) rs seed.

(** The caller's world after the notifications of a sequence of requests,
    one per request, in order. *)
Definition fold_notifications (props : Props) (rs : list Request) (w : World)
    : World :=
  fold_left (fun w r => fst (notification props (wants_open r) w)) rs w.

(** What the user can do to the rendered tree: the event reaches the handler
    the element carries.  (That MUI mounts the panel's children only while
    the panel is open is left to MUI.) *)
Inductive Interaction := TriggerClick | DismissClick | BackdropClose.

Definition interact (props : Props) (i : Interaction) : Handler :=
  fun s =>
    let v := view props s in
    match i with
    | TriggerClick =>
        match trigger v with
        | Some b => IconButton.click b s
        | None => (s, Normal tt)
        end
    | DismissClick =>
        match closeControl (panel v) with
        | Some b => IconButton.click b s
        | None => (s, Normal tt)
        end
    | BackdropClose => mui_onClose (panel v) s
    end.

(** [Rendered props s]: [s] is the store of a mounted instance whose latest
    render had [props]. *)
Inductive Rendered : Props -> Store -> Prop :=
| Rendered_mount id props w :
    Rendered props (mount id props w)
| Rendered_rerender props props' s :
    Rendered props s -> Rendered props' (rerender props' s)
| Rendered_interact props i s :
    Rendered props s ->
    Rendered props (rerender props (fst (interact props i s)))
| Rendered_request props r s :
    Rendered props s ->
    Rendered props (rerender props (fst (request props r s))).

(** The renders of one instance: mounted with [props0], then rendered again
    with each element of [later]; the views that end up on screen. *)
Fixpoint views_from (s : Store) (later : list Props) : list View :=
  match later with
  | [] => []
  | p :: ps => let s' := rerender p s in view p s' :: views_from s' ps
  end.

Definition renders (id : string) (props0 : Props) (later : list Props)
    (w : World) : list View :=
  let s0 := mount id props0 w in
  view props0 s0 :: views_from s0 later.

(** What happens to a mounted instance: the parent renders it with the
    props it passes now, or the user acts on it and React renders it again
    with the props it has. *)
Inductive Event :=
| Rerender (props : Props)
| User (i : Interaction).

(** The latest props and the store after a run of events. *)
Fixpoint run (props : Props) (s : Store) (evs : list Event) : Props * Store :=
  match evs with
  | [] => (props, s)
  | Rerender props' :: evs' => run props' (rerender props' s) evs'
  | User i :: evs' =>
      run props (rerender props (fst (interact props i s))) evs'
  end.

End Component.

Arguments Rendered_mount {World Exn} id props w.
Arguments Rendered_rerender {World Exn} props props' s _.
Arguments Rendered_interact {World Exn} props i s _.
Arguments Rendered_request {World Exn} props r s _.
Arguments Rerender {World Exn} props.
Arguments User {World Exn} i.
Arguments run {World Exn} props s evs.
Arguments open {World Exn} _.
Arguments onClose {World Exn} _.
Arguments onOpen {World Exn} _.
Arguments title {World Exn} _.
Arguments content {World Exn} _.
Arguments openButton {World Exn} _.
Arguments closeButton {World Exn} _.
Arguments openButtonProps {World Exn} _.
Arguments position {World Exn} _.
Arguments width {World Exn} _.
Arguments hooks {World} _.
Arguments world {World} _.
Arguments caller {World Exn} f _.
Arguments setDrawerOpen {World Exn} b _.
Arguments open_of {World Exn} props.
Arguments openButton_of {World Exn} props.
Arguments closeButton_of {World Exn} props.
Arguments position_of {World Exn} props.
Arguments width_of {World Exn} props.
Arguments handleDrawerToggle {World Exn} props isOpen _.
Arguments mui_anchor {World Exn} _.
Arguments mui_open {World Exn} _.
Arguments mui_onClose {World Exn} _.
Arguments mui_PaperProps {World Exn} _.
Arguments box_sx {World Exn} _.
Arguments heading {World Exn} _.
Arguments closeControl {World Exn} _.
Arguments body {World Exn} _.
Arguments trigger {World Exn} _.
Arguments panel {World Exn} _.
Arguments triggerProps {World Exn} props.
Arguments closeProps {World Exn} props.
Arguments Drawer {World Exn} props h.
Arguments syncEffect {World Exn} props _.
Arguments recordDeps {World Exn} open _.
Arguments commitEffects {World Exn} props _.
Arguments mount {World Exn} id props w.
Arguments rerender {World Exn} props s.
Arguments view {World Exn} props s.
Arguments request {World Exn} props r _.
Arguments requests {World Exn} props rs s.
Arguments notification {World Exn} props isOpen _.
Arguments fold_notifications {World Exn} props rs w.
Arguments Rendered {World Exn} _ _.
Arguments interact {World Exn} props i _.
Arguments views_from {World Exn} s later.
Arguments renders {World Exn} id props0 later w.

End Drawer.

(** ** NavBar.tsx *)

Module NavBar.

Inductive Position := Fixed | Absolute | Sticky | Static | Relative.

Inductive Color :=
| Default | Inherit | Primary | Secondary | Transparent
| Error | Info | Success | Warning.

(** The button colours are bar colours too: the same string literals. *)
Definition of_button_color (c : IconButton.Color) : Color :=
  match c with
  | IconButton.Primary => Primary
  | IconButton.Secondary => Secondary
  | IconButton.Error => Error
  | IconButton.Info => Info
  | IconButton.Success => Success
  | IconButton.Warning => Warning
  end.

(** [color === 'primary'] *)
Definition is_primary (c : Color) : bool :=
  match c with
  | Primary => true
  | _ => false
  end.

Section Component.

Variables World Exn : Type.

(** [Omit<DrawerProps, 'open' | 'openButton' | 'openButtonProps'>]: the
    Drawer's props without those three keys. *)
Record DrawerRest : Type := {
  drawer_onClose : Opt (Drawer.Callback World Exn);
  drawer_onOpen : Opt (Drawer.Callback World Exn);
  drawer_title : Opt string;
  drawer_content : Opt ReactNode;
  drawer_closeButton : Opt bool;
  drawer_position : Opt Drawer.Position;
  drawer_width : Opt Drawer.Dimension
}.

(** [NavBarProps] *)
Record Props : Type := {
  title : Opt string;
  position : Opt Position;
  color : Opt Color;
  showMenu : Opt bool;
  drawerProps : Opt DrawerRest;
  children : Opt ReactNode
}.

(** The [openButtonProps] literal of the [<Drawer>] element. *)
Definition menuButtonProps (color : Color)
    : IconButton.Props (Drawer.Callback World Exn) :=
  {| IconButton.variant := Given IconButton.TextVariant;
     IconButton.color :=
       Given (if is_primary color
              then IconButton.Secondary
              else IconButton.Primary);
     IconButton.content := Given MenuIcon;
     IconButton.startIcon := Absent;
     IconButton.endIcon := Absent;
     IconButton.loading := Absent;
     IconButton.disabled := Absent;
     IconButton.onClick := Absent;
     IconButton.size := Given IconButton.Large;
     IconButton.aria_label := Given "Open navigation menu" |}.

(** The props of the [<Drawer>] element:
    [{ open: false, openButton: true, openButtonProps: {...}, ...drawerProps }]. *)
Definition drawerElementProps (color : Color) (drawerProps : option DrawerRest)
    : Drawer.Props World Exn :=
  let rest :=
    match drawerProps with
    | Some d => d
    | None =>
        {| drawer_onClose := Absent; drawer_onOpen := Absent;
           drawer_title := Absent; drawer_content := Absent;
           drawer_closeButton := Absent; drawer_position := Absent;
           drawer_width := Absent |}
    end in
  {| Drawer.open := Given false;
     Drawer.onClose := spread Absent (drawer_onClose rest);
     Drawer.onOpen := spread Absent (drawer_onOpen rest);
     Drawer.title := spread Absent (drawer_title rest);
     Drawer.content := spread Absent (drawer_content rest);
     Drawer.openButton := Given true;
     Drawer.closeButton := spread Absent (drawer_closeButton rest);
     Drawer.openButtonProps := Given (menuButtonProps color);
     Drawer.position := spread Absent (drawer_position rest);
     Drawer.width := spread Absent (drawer_width rest) |}.

(** The [<AppBar>] the component returns; [menu] holds the props of the
    [<Drawer>] element when there is one. *)
Record AppBar : Type := {
  appbar_position : Position;
  appbar_color : Color;
  menu : option (Drawer.Props World Exn);
  appbar_title : option string;
  spacer : bool;
  appbar_children : option ReactNode
}.

Definition NavBar (props : Props) : AppBar :=
  let title := get (title props) in
  let position := or_default Static (position props) in
  let color := or_default Primary (color props) in
  let showMenu := or_default true (showMenu props) in
  let drawerProps := get (drawerProps props) in
  let children := get (children props) in
  {| appbar_position := position;
     appbar_color := color;
     menu :=
       if showMenu
       then Some (drawerElementProps color drawerProps)
       else None;
     appbar_title := if truthy title then title else None;
     spacer := negb (truthy title);
     appbar_children := children |}.

End Component.

Arguments drawer_onClose {World Exn} _.
Arguments drawer_onOpen {World Exn} _.
Arguments drawer_title {World Exn} _.
Arguments drawer_content {World Exn} _.
Arguments drawer_closeButton {World Exn} _.
Arguments drawer_position {World Exn} _.
Arguments drawer_width {World Exn} _.
Arguments title {World Exn} _.
Arguments position {World Exn} _.
Arguments color {World Exn} _.
Arguments showMenu {World Exn} _.
Arguments drawerProps {World Exn} _.
Arguments children {World Exn} _.
Arguments menuButtonProps {World Exn} color.
Arguments drawerElementProps {World Exn} color drawerProps.
Arguments menu {World Exn} _.
Arguments appbar_position {World Exn} _.
Arguments appbar_color {World Exn} _.
Arguments appbar_title {World Exn} _.
Arguments spacer {World Exn} _.
Arguments appbar_children {World Exn} _.
Arguments NavBar {World Exn} props.

End NavBar.

(** ** Concrete callers

    Callbacks that append to a log, as the stories' [console.log] callbacks
    do, and one that throws after logging. *)

Module Sample.

Definition Log : Type := list string.

Definition logging (msg : string) : Drawer.Callback Log string :=
  fun w => ((w ++ [msg])%list, Normal tt).

Definition failing (msg e : string) : Drawer.Callback Log string :=
  fun w => ((w ++ [msg])%list, Throw e).

(** [<Drawer />] *)
Definition bare : Drawer.Props Log string :=
  {| Drawer.open := Absent; Drawer.onClose := Absent; Drawer.onOpen := Absent;
     Drawer.title := Absent; Drawer.content := Absent;
     Drawer.openButton := Absent; Drawer.closeButton := Absent;
     Drawer.openButtonProps := Absent; Drawer.position := Absent;
     Drawer.width := Absent |}.

(** The arguments of the [BasicDrawer] story, with [open] as given. *)
Definition basic (open : bool) : Drawer.Props Log string :=
  {| Drawer.open := Given open;
     Drawer.onClose := Given (logging "Drawer closed");
     Drawer.onOpen := Given (logging "Drawer opened");
     Drawer.title := Given "Drawer Title";
     Drawer.content := Given (Text "This is the drawer content.");
     Drawer.openButton := Given true;
     Drawer.closeButton := Absent;
     Drawer.openButtonProps :=
       Given {| IconButton.variant := Absent; IconButton.color := Absent;
                IconButton.content := Given (Text "Open Drawer");
                IconButton.startIcon := Absent; IconButton.endIcon := Absent;
                IconButton.loading := Absent; IconButton.disabled := Absent;
                IconButton.onClick := Absent; IconButton.size := Absent;
                IconButton.aria_label := Absent |};
     Drawer.position := Absent;
     Drawer.width := Absent |}.

(** A Drawer whose two callbacks throw. *)
Definition fragile : Drawer.Props Log string :=
  {| Drawer.open := Given false;
     Drawer.onClose := Given (failing "closing" "close failed");
     Drawer.onOpen := Given (failing "opening" "open failed");
     Drawer.title := Absent; Drawer.content := Absent;
     Drawer.openButton := Absent; Drawer.closeButton := Absent;
     Drawer.openButtonProps := Absent; Drawer.position := Absent;
     Drawer.width := Absent |}.

(** [title=""], everything else left out. *)
Definition blank_title : Drawer.Props Log string :=
  {| Drawer.open := Absent; Drawer.onClose := Absent; Drawer.onOpen := Absent;
     Drawer.title := Given ""; Drawer.content := Absent;
     Drawer.openButton := Absent; Drawer.closeButton := Absent;
     Drawer.openButtonProps := Absent; Drawer.position := Absent;
     Drawer.width := Absent |}.

(** [position] and [width] given, everything else left out. *)
Definition placed (a : Drawer.Position) (d : Drawer.Dimension)
    : Drawer.Props Log string :=
  {| Drawer.open := Absent; Drawer.onClose := Absent; Drawer.onOpen := Absent;
     Drawer.title := Absent; Drawer.content := Absent;
     Drawer.openButton := Absent; Drawer.closeButton := Absent;
     Drawer.openButtonProps := Absent; Drawer.position := Given a;
     Drawer.width := Given d |}.

(** The [BasicDrawer] arguments with an [onClick] and an [aria-label] of the
    caller's own in [openButtonProps]. *)
Definition own_click : Drawer.Props Log string :=
  {| Drawer.open := Given false;
     Drawer.onClose := Given (logging "Drawer closed");
     Drawer.onOpen := Given (logging "Drawer opened");
     Drawer.title := Given "Drawer Title";
     Drawer.content := Absent;
     Drawer.openButton := Given true;
     Drawer.closeButton := Absent;
     Drawer.openButtonProps :=
       Given {| IconButton.variant := Absent; IconButton.color := Absent;
                IconButton.content := Given (Text "Open Drawer");
                IconButton.startIcon := Absent; IconButton.endIcon := Absent;
                IconButton.loading := Absent; IconButton.disabled := Absent;
                IconButton.onClick := Given (logging "clicked");
                IconButton.size := Absent;
                IconButton.aria_label := Given "Show details" |};
     Drawer.position := Absent;
     Drawer.width := Absent |}.

(** The [drawerProps] of the [RightSideMenu] story, with logging callbacks
    added. *)
Definition right_menu : NavBar.DrawerRest Log string :=
  {| NavBar.drawer_onClose := Given (logging "menu closed");
     NavBar.drawer_onOpen := Given (logging "menu opened");
     NavBar.drawer_title := Given "Account";
     NavBar.drawer_content := Given (Element 0);
     NavBar.drawer_closeButton := Absent;
     NavBar.drawer_position := Given Drawer.Right;
     NavBar.drawer_width := Absent |}.

(** A NavBar with the [right_menu] drawer and a title. *)
Definition right_navbar : NavBar.Props Log string :=
  {| NavBar.title := Given "Right Menu App";
     NavBar.position := Given NavBar.Static;
     NavBar.color := Absent;
     NavBar.showMenu := Absent;
     NavBar.drawerProps := Given right_menu;
     NavBar.children := Absent |}.

(** The arguments of the [NoMenu] story. *)
Definition no_menu : NavBar.Props Log string :=
  {| NavBar.title := Given "Simple Header";
     NavBar.position := Given NavBar.Static;
     NavBar.color := Absent;
     NavBar.showMenu := Given false;
     NavBar.drawerProps := Given right_menu;
     NavBar.children := Absent |}.

(** [<IconButton />] *)
Definition bare_button : IconButton.Props (Drawer.Callback Log string) :=
  {| IconButton.variant := Absent; IconButton.color := Absent;
     IconButton.content := Absent; IconButton.startIcon := Absent;
     IconButton.endIcon := Absent; IconButton.loading := Absent;
     IconButton.disabled := Absent; IconButton.onClick := Absent;
     IconButton.size := Absent; IconButton.aria_label := Absent |}.

(** [own_click] with [disabled: true] added to [openButtonProps]. *)
Definition own_click_disabled : Drawer.Props Log string :=
  {| Drawer.open := Given false;
     Drawer.onClose := Given (logging "Drawer closed");
     Drawer.onOpen := Given (logging "Drawer opened");
     Drawer.title := Given "Drawer Title";
     Drawer.content := Absent;
     Drawer.openButton := Given true;
     Drawer.closeButton := Absent;
     Drawer.openButtonProps :=
       Given {| IconButton.variant := Absent; IconButton.color := Absent;
                IconButton.content := Given (Text "Open Drawer");
                IconButton.startIcon := Absent; IconButton.endIcon := Absent;
                IconButton.loading := Absent;
                IconButton.disabled := Given true;
                IconButton.onClick := Given (logging "clicked");
                IconButton.size := Absent;
                IconButton.aria_label := Given "Show details" |};
     Drawer.position := Absent;
     Drawer.width := Absent |}.

(** [basic false] with [loading: true] added to [openButtonProps]. *)
Definition busy_trigger : Drawer.Props Log string :=
  {| Drawer.open := Given false;
     Drawer.onClose := Given (logging "Drawer closed");
     Drawer.onOpen := Given (logging "Drawer opened");
     Drawer.title := Given "Drawer Title";
     Drawer.content := Absent;
     Drawer.openButton := Given true;
     Drawer.closeButton := Absent;
     Drawer.openButtonProps :=
       Given {| IconButton.variant := Given IconButton.Outlined;
                IconButton.color := Absent;
                IconButton.content := Given (Text "Open Drawer");
                IconButton.startIcon := Absent; IconButton.endIcon := Absent;
                IconButton.loading := Given true;
                IconButton.disabled := Absent;
                IconButton.onClick := Absent;
                IconButton.size := Absent;
                IconButton.aria_label := Absent |};
     Drawer.position := Absent;
     Drawer.width := Absent |}.

(** [<Drawer open={true} openButton={false} closeButton={false}
    position="right" width={300} />] *)
Definition no_buttons : Drawer.Props Log string :=
  {| Drawer.open := Given true; Drawer.onClose := Absent;
     Drawer.onOpen := Absent; Drawer.title := Absent;
     Drawer.content := Absent;
     Drawer.openButton := Given false; Drawer.closeButton := Given false;
     Drawer.openButtonProps := Absent;
     Drawer.position := Given Drawer.Right;
     Drawer.width := Given (Drawer.Num 300) |}.

(** [<Drawer width={600} />] *)
Definition wide : Drawer.Props Log string :=
  {| Drawer.open := Absent; Drawer.onClose := Absent; Drawer.onOpen := Absent;
     Drawer.title := Absent; Drawer.content := Absent;
     Drawer.openButton := Absent; Drawer.closeButton := Absent;
     Drawer.openButtonProps := Absent; Drawer.position := Absent;
     Drawer.width := Given (Drawer.Num 600) |}.

(** A button with an [onClick], by default enabled. *)
Definition logging_button (disabled loading : Opt bool)
    : IconButton.Props (Drawer.Callback Log string) :=
  {| IconButton.variant := Absent; IconButton.color := Absent;
     IconButton.content := Given (Text "Save"); IconButton.startIcon := Absent;
     IconButton.endIcon := Absent; IconButton.loading := loading;
     IconButton.disabled := disabled;
     IconButton.onClick := Given (logging "Saved!");
     IconButton.size := Absent; IconButton.aria_label := Absent |}.

(** [<NavBar />] *)
Definition plain_navbar : NavBar.Props Log string :=
  {| NavBar.title := Absent; NavBar.position := Absent; NavBar.color := Absent;
     NavBar.showMenu := Absent; NavBar.drawerProps := Absent;
     NavBar.children := Absent |}.

End Sample.

(** * Properties *)

(** ** Requests: [handleDrawerToggle] *)

Section Requests.

Context {World Exn : Type}.
Implicit Types (props : Drawer.Props World Exn) (s : Drawer.Store World).
Implicit Types (isOpen : bool).

(** Everything a request does, in one equation: the cell holds the requested
    value, and the caller's world and the completion are those of the
    notification. *)
Lemma handleDrawerToggle_run props isOpen s :
  Drawer.handleDrawerToggle props isOpen s =
  ({| Drawer.hooks := Drawer.write_drawerOpen isOpen (Drawer.hooks s);
      Drawer.world := fst (Drawer.notification props isOpen (Drawer.world s)) |},
   snd (Drawer.notification props isOpen (Drawer.world s))).
Proof.
  unfold Drawer.handleDrawerToggle, Drawer.notification, Js.bind,
    Drawer.setDrawerOpen, Js.modify.
  cbn [fst snd Drawer.hooks Drawer.world].
  destruct isOpen.
  - destruct (Js.get (Drawer.onOpen props)) as [f|]; cbn.
    + unfold Drawer.caller, Js.zoom; cbn.
      destruct (f (Drawer.world s)) as [w c]; reflexivity.
    + reflexivity.
  - destruct (Js.get (Drawer.onClose props)) as [f|]; cbn.
    + unfold Drawer.caller, Js.zoom; cbn.
      destruct (f (Drawer.world s)) as [w c]; reflexivity.
    + reflexivity.
Qed.

Lemma write_drawerOpen_twice a b (h : Drawer.Hooks) :
  Drawer.write_drawerOpen a (Drawer.write_drawerOpen b h) =
  Drawer.write_drawerOpen a h.
Proof. reflexivity. Qed.

(** A request leaves the identifier and the effect's dependencies alone. *)
Lemma handleDrawerToggle_keeps_deps props isOpen s :
  Drawer.syncDeps (Drawer.hooks (fst (Drawer.handleDrawerToggle props isOpen s)))
  = Drawer.syncDeps (Drawer.hooks s).
Proof. rewrite handleDrawerToggle_run. reflexivity. Qed.

(** A render with unchanged [open] runs no effect. *)
Lemma rerender_same_open props s :
  Drawer.syncDeps (Drawer.hooks s) = Some (Drawer.open_of props) ->
  Drawer.rerender props s = s.
Proof.
  intros Hdeps. unfold Drawer.rerender, Drawer.commitEffects.
  rewrite Hdeps. cbn. rewrite Bool.eqb_reflx. reflexivity.
Qed.

(** After any commit the recorded dependency is the [open] of the props. *)
Lemma rerender_records_deps props s :
  Drawer.syncDeps (Drawer.hooks (Drawer.rerender props s))
  = Some (Drawer.open_of props).
Proof.
  unfold Drawer.rerender, Drawer.commitEffects.
  destruct (Drawer.syncDeps (Drawer.hooks s)) as [prev|] eqn:Hprev; cbn.
  - destruct (Bool.eqb prev (Drawer.open_of props)) eqn:Heq; cbn.
    + apply Bool.eqb_prop in Heq. congruence.
    + reflexivity.
  - reflexivity.
Qed.

Lemma mount_records_deps id props (w : World) :
  Drawer.syncDeps (Drawer.hooks (Drawer.mount id props w))
  = Some (Drawer.open_of props).
Proof. reflexivity. Qed.

(** The invariant of a mounted instance. *)
Lemma Rendered_deps props s :
  Drawer.Rendered props s ->
  Drawer.syncDeps (Drawer.hooks s) = Some (Drawer.open_of props).
Proof.
  induction 1 as [id props w | props props' s _ _ | props i s _ _ | props r s _ _].
  - apply mount_records_deps.
  - apply rerender_records_deps.
  - apply rerender_records_deps.
  - apply rerender_records_deps.
Qed.

(** C2. [requestOpen()] is [handleDrawerToggle(true)] and [requestClose()] is
    [handleDrawerToggle(false)].  Whatever the visibility was, a request
    leaves the cell at the requested value and runs [onOpen] (for open) or
    [onClose] (for close) once on the caller's world if the caller gave one,
    and nothing otherwise.  A second identical request leaves the visibility
    where the first put it and runs the callback a second time. *)
Theorem request_sets_visibility_and_notifies props s :
  let after_open := Drawer.handleDrawerToggle props true s in
  let after_close := Drawer.handleDrawerToggle props false s in
  (Drawer.drawerOpen (Drawer.hooks (fst after_open)) = true /\
   (Drawer.world (fst after_open), snd after_open) =
     match Js.get (Drawer.onOpen props) with
     | Some onOpen => onOpen (Drawer.world s)
     | None => (Drawer.world s, Normal tt)
     end) /\
  (Drawer.drawerOpen (Drawer.hooks (fst after_close)) = false /\
   (Drawer.world (fst after_close), snd after_close) =
     match Js.get (Drawer.onClose props) with
     | Some onClose => onClose (Drawer.world s)
     | None => (Drawer.world s, Normal tt)
     end) /\
  (forall isOpen,
     let once := fst (Drawer.handleDrawerToggle props isOpen s) in
     let twice := fst (Drawer.handleDrawerToggle props isOpen once) in
     Drawer.hooks twice = Drawer.hooks once /\
     Drawer.world twice =
       fst (Drawer.notification props isOpen
              (fst (Drawer.notification props isOpen (Drawer.world s))))).
Proof.
  cbv zeta. repeat split.
  - rewrite handleDrawerToggle_run. reflexivity.
  - rewrite handleDrawerToggle_run. unfold Drawer.notification.
    cbn [fst snd Drawer.world].
    destruct (Js.get (Drawer.onOpen props)) as [f|]; cbn.
    + destruct (f (Drawer.world s)); reflexivity.
    + reflexivity.
  - rewrite handleDrawerToggle_run. reflexivity.
  - rewrite handleDrawerToggle_run. unfold Drawer.notification.
    cbn [fst snd Drawer.world].
    destruct (Js.get (Drawer.onClose props)) as [f|]; cbn.
    + destruct (f (Drawer.world s)); reflexivity.
    + reflexivity.
  - rewrite !handleDrawerToggle_run. reflexivity.
  - rewrite !handleDrawerToggle_run. reflexivity.
Qed.

(** C8. When the callback of a request throws [e], the request ends by
    throwing that same [e] (nothing in [handleDrawerToggle] catches it or
    reports it: the caller's world is exactly what the callback left), and the
    cell already holds the requested visibility. *)
Theorem callback_exception_propagates props isOpen s
    (callback : Drawer.Callback World Exn) (w' : World) (e : Exn) :
  (if isOpen then Drawer.onOpen props else Drawer.onClose props)
    = Given callback ->
  callback (Drawer.world s) = (w', Throw e) ->
  Drawer.handleDrawerToggle props isOpen s =
  ({| Drawer.hooks := Drawer.write_drawerOpen isOpen (Drawer.hooks s);
      Drawer.world := w' |},
   Throw e).
Proof.
  intros Hcb Hthrow.
  rewrite handleDrawerToggle_run. unfold Drawer.notification.
  rewrite Hcb. cbn. rewrite Hthrow. reflexivity.
Qed.

End Requests.

Lemma callback_exception_propagates_witness :
  Drawer.onOpen Sample.fragile = Given (Sample.failing "opening" "open failed") /\
  Sample.failing "opening" "open failed" [] = (["opening"], Throw "open failed") /\
  Drawer.handleDrawerToggle Sample.fragile true
    (Drawer.mount "r0" Sample.fragile []) =
  ({| Drawer.hooks := {| Drawer.drawerOpen := true;
                         Drawer.titleId := "r0";
                         Drawer.syncDeps := Some false |};
      Drawer.world := ["opening"] |},
   Throw "open failed").
Proof.
  split; [reflexivity | split; [reflexivity | ]].
  apply (callback_exception_propagates Sample.fragile true
           (Drawer.mount "r0" Sample.fragile [])
           (Sample.failing "opening" "open failed")
           ["opening"] "open failed"); reflexivity.
Defined.

(** ** Sequences of requests *)

Section Sequences.

Context {World Exn : Type}.
Implicit Types (props : Drawer.Props World Exn) (s : Drawer.Store World).
Implicit Types (rs : list Drawer.Request).

(** The default of [last] is only used for the empty list. *)
Lemma last_nonempty_default (l : list bool) : forall a d d',
  last (a :: l) d = last (a :: l) d'.
Proof.
  induction l as [|b l IH]; intros a d d'; [reflexivity|].
  change (last (b :: l) d = last (b :: l) d'). apply IH.
Qed.

Lemma fold_requests_last seed rs :
  Drawer.fold_requests seed rs = last (map Drawer.wants_open rs) seed.
Proof.
  unfold Drawer.fold_requests. revert seed.
  induction rs as [|r rs IH]; intros seed; [reflexivity|].
  cbn [fold_left]. rewrite IH.
  destruct rs as [|r' rs]; [reflexivity|].
  cbn [map].
  rewrite (last_nonempty_default _ (Drawer.wants_open r') (Drawer.wants_open r) seed).
  reflexivity.
Qed.

Lemma fold_requests_app seed rs rs' :
  Drawer.fold_requests seed (rs ++ rs') =
  Drawer.fold_requests (Drawer.fold_requests seed rs) rs'.
Proof. unfold Drawer.fold_requests. apply fold_left_app. Qed.

(** One request followed by the render it causes. *)
Lemma request_then_render props r s :
  Drawer.syncDeps (Drawer.hooks s) = Some (Drawer.open_of props) ->
  Drawer.rerender props (fst (Drawer.request props r s)) =
  {| Drawer.hooks := Drawer.write_drawerOpen (Drawer.wants_open r) (Drawer.hooks s);
     Drawer.world :=
       fst (Drawer.notification props (Drawer.wants_open r) (Drawer.world s)) |}.
Proof.
  intros Hdeps. unfold Drawer.request.
  rewrite rerender_same_open.
  - rewrite handleDrawerToggle_run. reflexivity.
  - rewrite handleDrawerToggle_keeps_deps. exact Hdeps.
Qed.

(** A sequence of requests from any store of an instance rendered with
    [props]. *)
Lemma requests_from props rs : forall s,
  Drawer.syncDeps (Drawer.hooks s) = Some (Drawer.open_of props) ->
  Drawer.drawerOpen (Drawer.hooks (Drawer.requests props rs s)) =
    Drawer.fold_requests (Drawer.drawerOpen (Drawer.hooks s)) rs /\
  Drawer.world (Drawer.requests props rs s) =
    Drawer.fold_notifications props rs (Drawer.world s).
Proof.
  induction rs as [|r rs IH]; intros s Hdeps.
  - split; reflexivity.
  - cbn [Drawer.requests]. rewrite (request_then_render props r s Hdeps).
    destruct (IH {| Drawer.hooks :=
                      Drawer.write_drawerOpen (Drawer.wants_open r) (Drawer.hooks s);
                    Drawer.world :=
                      fst (Drawer.notification props (Drawer.wants_open r)
                             (Drawer.world s)) |}) as [Hvis Hworld].
    + exact Hdeps.
    + split; [exact Hvis | exact Hworld].
Qed.

(** C3. Mount an instance and apply any sequence of requests, with the
    parent's props unchanged.  The visibility then rendered is the fold of
    the sequence over the seed, which is the target of the last request (the
    seed for the empty sequence); repeating the last request changes nothing
    in the visibility; and the caller's world has seen one notification per
    request, in order. *)
Theorem requests_fold id props (w : World) rs :
  let s := Drawer.requests props rs (Drawer.mount id props w) in
  Drawer.mui_open (Drawer.panel (Drawer.view props s)) =
    Drawer.fold_requests (Drawer.open_of props) rs /\
  Drawer.fold_requests (Drawer.open_of props) rs =
    last (map Drawer.wants_open rs) (Drawer.open_of props) /\
  (forall r,
     Drawer.fold_requests (Drawer.open_of props) (rs ++ [r; r]) =
     Drawer.fold_requests (Drawer.open_of props) (rs ++ [r])) /\
  Drawer.world s = Drawer.fold_notifications props rs w.
Proof.
  cbv zeta.
  destruct (requests_from props rs (Drawer.mount id props w)
              (mount_records_deps id props w)) as [Hvis Hworld].
  repeat split.
  - exact Hvis.
  - apply fold_requests_last.
  - intros r. rewrite !fold_requests_app. reflexivity.
  - exact Hworld.
Qed.

End Sequences.

(** Scenario A of the specification with the [BasicDrawer] story: the trigger
    is rendered, the panel is closed; a click on the trigger opens it and
    logs one [onOpen]. *)
Example scenario_A :
  let s0 := Drawer.mount "r0" (Sample.basic false) [] in
  let s1 := fst (Drawer.interact (Sample.basic false) Drawer.TriggerClick s0) in
  Drawer.trigger (Drawer.view (Sample.basic false) s0) <> None /\
  Drawer.mui_open (Drawer.panel (Drawer.view (Sample.basic false) s0)) = false /\
  Drawer.mui_open (Drawer.panel (Drawer.view (Sample.basic false) s1)) = true /\
  Drawer.world s1 = ["Drawer opened"].
Proof. cbv zeta. repeat split. discriminate. Qed.

(** ** Reconciliation with the [open] prop *)

Section Reconciliation.

Context {World Exn : Type}.
Implicit Types (props : Drawer.Props World Exn) (s : Drawer.Store World).

(** The render that first receives a new [open] still reads the old cell;
    the effect overwrites it after that commit. *)
Lemma first_pass_reads_old_cell props' s :
  Drawer.mui_open (Drawer.panel (Drawer.Drawer props' (Drawer.hooks s))) =
  Drawer.drawerOpen (Drawer.hooks s).
Proof. reflexivity. Qed.

(** C1. Take an instance last rendered with [props] and render it with
    [props'] whose [open] differs.  The effect then runs to the end without
    throwing, the cell holds the new [open] (in either direction), the panel
    shows it, and the caller's world is untouched, whatever [onOpen] and
    [onClose] are: neither is called. *)
Theorem external_open_change_resyncs_silently props props' s :
  Drawer.Rendered props s ->
  Drawer.open_of props' <> Drawer.open_of props ->
  Drawer.commitEffects props' s =
    ({| Drawer.hooks := {| Drawer.drawerOpen := Drawer.open_of props';
                           Drawer.titleId := Drawer.titleId (Drawer.hooks s);
                           Drawer.syncDeps := Some (Drawer.open_of props') |};
        Drawer.world := Drawer.world s |},
     Normal tt) /\
  Drawer.mui_open (Drawer.panel (Drawer.view props' (Drawer.rerender props' s)))
    = Drawer.open_of props' /\
  Drawer.world (Drawer.rerender props' s) = Drawer.world s.
Proof.
  intros Hrendered Hchange.
  apply Rendered_deps in Hrendered.
  assert (Hrun : Drawer.commitEffects props' s =
    ({| Drawer.hooks := {| Drawer.drawerOpen := Drawer.open_of props';
                           Drawer.titleId := Drawer.titleId (Drawer.hooks s);
                           Drawer.syncDeps := Some (Drawer.open_of props') |};
        Drawer.world := Drawer.world s |},
     Normal tt)).
  { unfold Drawer.commitEffects. rewrite Hrendered. cbn [Drawer.depsChanged].
    destruct (Bool.eqb (Drawer.open_of props) (Drawer.open_of props')) eqn:Heq.
    - apply Bool.eqb_prop in Heq. congruence.
    - reflexivity. }
  unfold Drawer.rerender, Drawer.view. rewrite Hrun.
  repeat split.
Qed.

(** Without a change of [open] a render leaves the cell alone, so what the
    user did since the last change stays. *)
Lemma unchanged_open_keeps_cell props props' s :
  Drawer.Rendered props s ->
  Drawer.open_of props' = Drawer.open_of props ->
  Drawer.rerender props' s = s.
Proof.
  intros Hrendered Hsame. apply rerender_same_open.
  rewrite Hsame. apply Rendered_deps. exact Hrendered.
Qed.

End Reconciliation.

Lemma external_open_change_resyncs_silently_witness :
  Drawer.Rendered (Sample.basic false) (Drawer.mount "r0" (Sample.basic false) []) /\
  Drawer.open_of (Sample.basic true) <> Drawer.open_of (Sample.basic false) /\
  Drawer.commitEffects (Sample.basic true)
    (Drawer.mount "r0" (Sample.basic false) []) =
    ({| Drawer.hooks := {| Drawer.drawerOpen := true;
                           Drawer.titleId := "r0";
                           Drawer.syncDeps := Some true |};
        Drawer.world := [] |},
     Normal tt) /\
  Drawer.mui_open
    (Drawer.panel
       (Drawer.view (Sample.basic true)
          (Drawer.rerender (Sample.basic true)
             (Drawer.mount "r0" (Sample.basic false) [])))) = true /\
  Drawer.world
    (Drawer.rerender (Sample.basic true)
       (Drawer.mount "r0" (Sample.basic false) [])) = [].
Proof.
  split; [apply Drawer.Rendered_mount | ].
  split; [discriminate | ].
  apply (external_open_change_resyncs_silently
           (Sample.basic false) (Sample.basic true)
           (Drawer.mount "r0" (Sample.basic false) [])).
  - apply Drawer.Rendered_mount.
  - discriminate.
Defined.

(** Scenario D: mounted with [open=true], then the parent passes
    [open=false]: the panel is hidden and nothing was logged. *)
Example scenario_D :
  let s0 := Drawer.mount "r0" (Sample.basic true) [] in
  let s1 := Drawer.rerender (Sample.basic false) s0 in
  Drawer.mui_open (Drawer.panel (Drawer.view (Sample.basic true) s0)) = true /\
  Drawer.mui_open (Drawer.panel (Drawer.view (Sample.basic false) s1)) = false /\
  Drawer.world s1 = [].
Proof. cbv zeta. repeat split. Qed.

(** ** What one render puts on the panel *)

Section Rendering.

Context {World Exn : Type}.
Implicit Types (props : Drawer.Props World Exn) (s : Drawer.Store World).
Implicit Types (h : Drawer.Hooks).

(** C4, as amended.  On every render the panel has exactly one of
    [aria-labelledby] and [aria-label].  With a title that is a non-empty
    string it is [aria-labelledby], holding the identifier of the instance,
    and the heading with that identifier and the title as text is rendered.
    With no title, or with the empty string as title, it is
    [aria-label="Drawer"], and no heading is rendered. *)
Theorem surface_has_exactly_one_label props h :
  let paper := Drawer.mui_PaperProps (Drawer.panel (Drawer.Drawer props h)) in
  let heading := Drawer.heading (Drawer.panel (Drawer.Drawer props h)) in
  let by_title t :=
    Drawer.aria_labelledby paper = Some (Drawer.titleId h) /\
    Drawer.aria_label paper = None /\
    heading = Some {| Drawer.heading_id := Drawer.titleId h;
                      Drawer.heading_text := t |} in
  let generic :=
    Drawer.aria_labelledby paper = None /\
    Drawer.aria_label paper = Some "Drawer" /\
    heading = None in
  (Drawer.aria_labelledby paper = None <-> Drawer.aria_label paper <> None) /\
  match Js.get (Drawer.title props) with
  | Some t => if String.eqb t "" then generic else by_title t
  | None => generic
  end.
Proof.
  cbv zeta. unfold Drawer.Drawer.
  cbn [Drawer.panel Drawer.mui_PaperProps Drawer.heading
       Drawer.aria_labelledby Drawer.aria_label].
  destruct (Js.get (Drawer.title props)) as [t|]; cbn [Js.truthy].
  - destruct (String.eqb t ""); cbn [negb option_map].
    + split; [split; [discriminate | reflexivity] | repeat split].
    + split; [split; [discriminate | intros Hne; now elim Hne] | repeat split].
  - split; [split; [discriminate | reflexivity] | repeat split].
Qed.

(** C5. Let the extent [d] be given as [width], and let [a] be the anchor:
    the [position] given, or left when [position] is left out.  The panel is
    anchored at [a], and its outer box gets [d] as its width and no height
    when [a] is left or right, and [d] as its height and no width when [a]
    is top or bottom; that is [drawerSize] of [a] and [d].  The box is
    computed from the props of the render alone: the hook cells play no
    part. *)
Theorem extent_maps_to_dimension_by_anchor props h (d : Drawer.Dimension) :
  Drawer.width props = Given d ->
  let a := Js.or_default Drawer.Left (Drawer.position props) in
  let p := Drawer.panel (Drawer.Drawer props h) in
  let sx := Drawer.box_sx p in
  Drawer.mui_anchor p = a /\
  match a with
  | Drawer.Left | Drawer.Right =>
      Drawer.sx_width sx = Some d /\ Drawer.sx_height sx = None
  | Drawer.Top | Drawer.Bottom =>
      Drawer.sx_height sx = Some d /\ Drawer.sx_width sx = None
  end /\
  (Drawer.sx_width sx = Drawer.size_width (Drawer.drawerSize a d) /\
   Drawer.sx_height sx = Drawer.size_height (Drawer.drawerSize a d)) /\
  (forall h', Drawer.box_sx (Drawer.panel (Drawer.Drawer props h')) = sx).
Proof.
  intros Hd. cbv zeta. unfold Drawer.Drawer.
  cbn [Drawer.panel Drawer.box_sx Drawer.sx_width Drawer.sx_height
       Drawer.mui_anchor].
  unfold Drawer.position_of, Drawer.width_of. rewrite Hd.
  change (Js.or_default (Drawer.Num 400) (Given d)) with d.
  destruct (Js.or_default Drawer.Left (Drawer.position props)); cbn;
    repeat split.
Qed.

(** The anchor of a render is the [position] of that render. *)
Lemma anchor_is_position props h :
  Drawer.mui_anchor (Drawer.panel (Drawer.Drawer props h)) =
  Drawer.position_of props.
Proof. reflexivity. Qed.

Lemma views_from_anchor (later : list (Drawer.Props World Exn)) : forall s,
  map (fun v => Drawer.mui_anchor (Drawer.panel v)) (Drawer.views_from s later)
  = map Drawer.position_of later.
Proof.
  induction later as [|p ps IH]; intros s; [reflexivity|].
  cbn [Drawer.views_from map]. rewrite IH.
  unfold Drawer.view. rewrite anchor_is_position. reflexivity.
Qed.

Lemma renders_anchor id props0
    (later : list (Drawer.Props World Exn)) (w : World) :
  map (fun v => Drawer.mui_anchor (Drawer.panel v))
      (Drawer.renders id props0 later w)
  = map Drawer.position_of (props0 :: later).
Proof.
  unfold Drawer.renders. cbn [map].
  rewrite views_from_anchor. unfold Drawer.view.
  rewrite anchor_is_position. reflexivity.
Qed.

(** The anchor stays what it was at creation as long as the parent keeps
    passing the same [position]. *)
Lemma anchor_fixed_while_position_fixed id props0
    (later : list (Drawer.Props World Exn)) (w : World) :
  Forall (fun p => Drawer.position_of p = Drawer.position_of props0) later ->
  Forall (fun v => Drawer.mui_anchor (Drawer.panel v) = Drawer.position_of props0)
    (Drawer.renders id props0 later w).
Proof.
  intros Hsame.
  assert (Hmap := renders_anchor id props0 later w).
  remember (Drawer.renders id props0 later w) as vs eqn:Hvs. clear Hvs.
  assert (Hall : Forall (fun p => Drawer.position_of p = Drawer.position_of props0)
                   (props0 :: later)) by (constructor; [reflexivity | exact Hsame]).
  clear Hsame. revert vs Hmap.
  induction Hall as [|p ps Hp _ IH]; intros vs Hmap.
  - destruct vs; [constructor | discriminate].
  - destruct vs as [|v vs]; [discriminate|].
    cbn [map] in Hmap. injection Hmap as Hv Hvs.
    constructor; [congruence | apply IH; exact Hvs].
Qed.

(** C6, as amended.  Over the renders of one instance, the anchor of each
    render is the [position] passed to that render, left when none is
    passed.  The component keeps no anchor of its own; the anchor is the one
    the instance was created with on every render whose [position] is the
    one it was created with. *)
Theorem anchor_follows_position_input id props0
    (later : list (Drawer.Props World Exn)) (w : World) :
  map (fun v => Drawer.mui_anchor (Drawer.panel v))
      (Drawer.renders id props0 later w)
  = map Drawer.position_of (props0 :: later).
Proof. apply renders_anchor. Qed.

(** C7. An option the caller leaves out (no key, or [undefined]) takes its
    default: with [open] left out the instance mounts closed, with
    [openButton] left out the trigger is rendered, with [closeButton] left
    out the close button is rendered, with [position] left out the panel is
    anchored left, with [width] left out the extent is 400.  An [open] or a
    [position] that is given is used as given.  The flags gate the two
    controls: [openButton] false renders no trigger and [openButton] true
    renders it, [closeButton] false renders no close button and
    [closeButton] true renders it. *)
Theorem omitted_options_take_defaults props h id (w : World) :
  let v := Drawer.Drawer props h in
  let mounted := Drawer.mount id props w in
  (Js.omitted (Drawer.open props) ->
     Drawer.drawerOpen (Drawer.hooks mounted) = false /\
     Drawer.mui_open (Drawer.panel (Drawer.view props mounted)) = false) /\
  (forall b, Drawer.open props = Given b ->
     Drawer.mui_open (Drawer.panel (Drawer.view props mounted)) = b) /\
  (Js.omitted (Drawer.openButton props) -> Drawer.trigger v <> None) /\
  (Js.omitted (Drawer.closeButton props) ->
     Drawer.closeControl (Drawer.panel v) <> None) /\
  (Js.omitted (Drawer.position props) ->
     Drawer.mui_anchor (Drawer.panel v) = Drawer.Left) /\
  (forall a, Drawer.position props = Given a ->
     Drawer.mui_anchor (Drawer.panel v) = a) /\
  (Js.omitted (Drawer.width props) ->
     match Js.or_default Drawer.Left (Drawer.position props) with
     | Drawer.Left | Drawer.Right =>
         Drawer.sx_width (Drawer.box_sx (Drawer.panel v)) = Some (Drawer.Num 400)
     | Drawer.Top | Drawer.Bottom =>
         Drawer.sx_height (Drawer.box_sx (Drawer.panel v)) = Some (Drawer.Num 400)
     end) /\
  (Drawer.openButton props = Given false -> Drawer.trigger v = None) /\
  (Drawer.openButton props = Given true -> Drawer.trigger v <> None) /\
  (Drawer.closeButton props = Given false ->
     Drawer.closeControl (Drawer.panel v) = None) /\
  (Drawer.closeButton props = Given true ->
     Drawer.closeControl (Drawer.panel v) <> None) /\
  (Drawer.trigger v <> None <->
     Js.or_default true (Drawer.openButton props) = true) /\
  (Drawer.closeControl (Drawer.panel v) <> None <->
     Js.or_default true (Drawer.closeButton props) = true).
Proof.
  cbv zeta. unfold Js.omitted, Drawer.view, Drawer.Drawer.
  cbn [Drawer.trigger Drawer.panel Drawer.closeControl Drawer.mui_anchor
       Drawer.mui_open Drawer.box_sx Drawer.sx_width Drawer.sx_height].
  unfold Drawer.openButton_of, Drawer.closeButton_of, Drawer.position_of,
    Drawer.width_of.
  assert (Hmount : Drawer.drawerOpen (Drawer.hooks (Drawer.mount id props w))
                   = Js.or_default false (Drawer.open props))
    by reflexivity.
  rewrite Hmount.
  split; [intros H; unfold Js.or_default; rewrite H; split; reflexivity|].
  split; [intros b H; rewrite H; reflexivity|].
  split; [intros H; unfold Js.or_default; rewrite H; discriminate|].
  split; [intros H; unfold Js.or_default; rewrite H; discriminate|].
  split; [intros H; unfold Js.or_default; rewrite H; reflexivity|].
  split; [intros a H; rewrite H; reflexivity|].
  split.
  { intros H. unfold Drawer.drawerSize.
    replace (Js.or_default (Drawer.Num 400) (Drawer.width props))
      with (Drawer.Num 400)
      by (unfold Js.or_default; rewrite H; reflexivity).
    destruct (Js.or_default Drawer.Left (Drawer.position props)); reflexivity. }
  split; [intros H; rewrite H; reflexivity|].
  split; [intros H; rewrite H; discriminate|].
  split; [intros H; rewrite H; reflexivity|].
  split; [intros H; rewrite H; discriminate|].
  split.
  - destruct (Js.or_default true (Drawer.openButton props)); split; intros H;
      first [reflexivity | discriminate | now elim H].
  - destruct (Js.or_default true (Drawer.closeButton props)); split; intros H;
      first [reflexivity | discriminate | now elim H].
Qed.

End Rendering.

(** C4, as stated, fails for the empty string: a title is supplied, yet the
    panel is not labelled by the identifier and carries the generic label. *)
Lemma blank_title_gets_generic_label :
  let h := Drawer.hooks (Drawer.mount "r0" Sample.blank_title []) in
  let paper :=
    Drawer.mui_PaperProps (Drawer.panel (Drawer.Drawer Sample.blank_title h)) in
  Drawer.title Sample.blank_title = Given "" /\
  Drawer.aria_labelledby paper <> Some (Drawer.titleId h) /\
  Drawer.aria_labelledby paper = None /\
  Drawer.aria_label paper = Some "Drawer".
Proof. cbv zeta. repeat split. discriminate. Qed.

(** Scenario B: with [title="Drawer Title"] the panel is labelled by the
    heading that shows the title. *)
Example scenario_B :
  let h := Drawer.hooks (Drawer.mount "r0" (Sample.basic false) []) in
  let p := Drawer.panel (Drawer.Drawer (Sample.basic false) h) in
  Drawer.aria_labelledby (Drawer.mui_PaperProps p) = Some "r0" /\
  Drawer.aria_label (Drawer.mui_PaperProps p) = None /\
  Drawer.heading p = Some {| Drawer.heading_id := "r0";
                             Drawer.heading_text := "Drawer Title" |}.
Proof. cbv zeta. repeat split. Qed.

Lemma extent_maps_to_dimension_by_anchor_witness :
  let h := {| Drawer.drawerOpen := true; Drawer.titleId := "r0";
              Drawer.syncDeps := Some false |} in
  let top := Drawer.panel
               (Drawer.Drawer (Sample.placed Drawer.Top (Drawer.Num 200)) h) in
  let wide := Drawer.panel (Drawer.Drawer Sample.wide h) in
  (Drawer.width (Sample.placed Drawer.Top (Drawer.Num 200))
     = Given (Drawer.Num 200) /\
   Drawer.mui_anchor top = Drawer.Top /\
   Drawer.sx_height (Drawer.box_sx top) = Some (Drawer.Num 200) /\
   Drawer.sx_width (Drawer.box_sx top) = None) /\
  (Drawer.width Sample.wide = Given (Drawer.Num 600) /\
   Drawer.mui_anchor wide = Drawer.Left /\
   Drawer.sx_width (Drawer.box_sx wide) = Some (Drawer.Num 600) /\
   Drawer.sx_height (Drawer.box_sx wide) = None).
Proof.
  cbv zeta. split.
  - split; [reflexivity | ].
    destruct (extent_maps_to_dimension_by_anchor
                (Sample.placed Drawer.Top (Drawer.Num 200))
                {| Drawer.drawerOpen := true; Drawer.titleId := "r0";
                   Drawer.syncDeps := Some false |}
                (Drawer.Num 200) eq_refl) as (Hanchor & Hbox & _).
    split; [exact Hanchor | exact Hbox].
  - split; [reflexivity | ].
    destruct (extent_maps_to_dimension_by_anchor Sample.wide
                {| Drawer.drawerOpen := true; Drawer.titleId := "r0";
                   Drawer.syncDeps := Some false |}
                (Drawer.Num 600) eq_refl) as (Hanchor & Hbox & _).
    split; [exact Hanchor | exact Hbox].
Defined.

(** C6, as stated, fails: an instance created with [position="left"] and
    rendered again with [position="right"] has its panel anchored right. *)
Lemma anchor_changes_with_position_input :
  map (fun v => Drawer.mui_anchor (Drawer.panel v))
      (Drawer.renders "r0"
         (Sample.placed Drawer.Left (Drawer.Num 400))
         [Sample.placed Drawer.Right (Drawer.Num 400)]
         [])
  = [Drawer.Left; Drawer.Right].
Proof. reflexivity. Qed.

Lemma omitted_options_take_defaults_witness :
  let h := {| Drawer.drawerOpen := false; Drawer.titleId := "r0";
              Drawer.syncDeps := Some false |} in
  let v := Drawer.Drawer Sample.bare h in
  let v' := Drawer.Drawer Sample.no_buttons h in
  (Js.omitted (Drawer.open Sample.bare) /\
   Js.omitted (Drawer.openButton Sample.bare) /\
   Js.omitted (Drawer.closeButton Sample.bare) /\
   Js.omitted (Drawer.position Sample.bare) /\
   Js.omitted (Drawer.width Sample.bare) /\
   Drawer.drawerOpen (Drawer.hooks (Drawer.mount "r0" Sample.bare [])) = false /\
   Drawer.trigger v <> None /\
   Drawer.closeControl (Drawer.panel v) <> None /\
   Drawer.mui_anchor (Drawer.panel v) = Drawer.Left /\
   Drawer.sx_width (Drawer.box_sx (Drawer.panel v)) = Some (Drawer.Num 400)) /\
  (Drawer.openButton Sample.no_buttons = Given false /\
   Drawer.closeButton Sample.no_buttons = Given false /\
   Drawer.open Sample.no_buttons = Given true /\
   Drawer.position Sample.no_buttons = Given Drawer.Right /\
   Drawer.trigger v' = None /\
   Drawer.closeControl (Drawer.panel v') = None /\
   Drawer.mui_open
     (Drawer.panel
        (Drawer.view Sample.no_buttons (Drawer.mount "r0" Sample.no_buttons [])))
     = true /\
   Drawer.mui_anchor (Drawer.panel v') = Drawer.Right).
Proof.
  cbv zeta.
  destruct (omitted_options_take_defaults Sample.bare
              {| Drawer.drawerOpen := false; Drawer.titleId := "r0";
                 Drawer.syncDeps := Some false |} "r0" [])
    as (Hopen & _ & Htrigger & Hclose & Hposition & _ & Hwidth & _).
  destruct (omitted_options_take_defaults Sample.no_buttons
              {| Drawer.drawerOpen := false; Drawer.titleId := "r0";
                 Drawer.syncDeps := Some false |} "r0" [])
    as (_ & Hgiven & _ & _ & _ & Hplaced & _ & Hno_trigger & _ & Hno_close & _).
  split.
  - do 5 (split; [reflexivity | ]).
    split; [exact (proj1 (Hopen eq_refl)) | ].
    split; [exact (Htrigger eq_refl) | ].
    split; [exact (Hclose eq_refl) | ].
    split; [exact (Hposition eq_refl) | ].
    exact (Hwidth eq_refl).
  - do 4 (split; [reflexivity | ]).
    split; [exact (Hno_trigger eq_refl) | ].
    split; [exact (Hno_close eq_refl) | ].
    split; [exact (Hgiven true eq_refl) | ].
    exact (Hplaced Drawer.Right eq_refl).
Defined.

(** ** The trigger and [openButtonProps] *)

Section Trigger.

Context {World Exn : Type}.
Implicit Types (props : Drawer.Props World Exn) (s : Drawer.Store World).
Implicit Types (bag : IconButton.Props (Drawer.Callback World Exn)).

(** A caller's callback cannot reach the hook cells. *)
Lemma caller_keeps_hooks (f : Drawer.Callback World Exn) s :
  Drawer.hooks (fst (Drawer.caller f s)) = Drawer.hooks s /\
  Drawer.world (fst (Drawer.caller f s)) = fst (f (Drawer.world s)) /\
  snd (Drawer.caller f s) = snd (f (Drawer.world s)).
Proof.
  unfold Drawer.caller, Js.zoom.
  destruct (f (Drawer.world s)) as [w c]. repeat split.
Qed.

(** What a click on the rendered trigger runs, and the label it carries. *)
Lemma trigger_of_bag props bag h :
  Js.get (Drawer.openButtonProps props) = Some bag ->
  Js.or_default true (Drawer.openButton props) = true ->
  exists b,
    Drawer.trigger (Drawer.Drawer props h) = Some b /\
    (forall s,
       IconButton.click b s =
       if Js.or_default false (IconButton.disabled bag)
          || Js.or_default false (IconButton.loading bag)
       then (s, Normal tt)
       else Js.call_opt
              (Js.get (Js.spread (Given (Drawer.handleDrawerToggle props true))
                         (Js.map_given Drawer.caller (IconButton.onClick bag))))
              s) /\
    IconButton.btn_aria_label b =
      Js.get (Js.spread (Given "Open drawer") (IconButton.aria_label bag)).
Proof.
  intros Hbag Hbutton. unfold Drawer.Drawer. cbn [Drawer.trigger].
  unfold Drawer.openButton_of. rewrite Hbutton.
  eexists. split; [reflexivity|].
  unfold Drawer.triggerProps. rewrite Hbag. split; [|reflexivity].
  intros s. unfold IconButton.click, IconButton.btn_inert.
  cbn [option_map IconButton.spread_opt].
  unfold IconButton.IconButton, IconButton.spread_props, IconButton.map_onClick.
  cbn [IconButton.btn_disabled IconButton.btn_loading IconButton.btn_onClick
       IconButton.disabled IconButton.loading IconButton.onClick].
  destruct (IconButton.disabled bag) as [| |[|]],
           (IconButton.loading bag) as [| |[|]]; reflexivity.
Qed.

(** Without [openButtonProps], or with a bag that has no [onClick] key and
    leaves the button enabled, a click on the trigger is the open request. *)
Lemma default_trigger_requests_open props s :
  Js.or_default true (Drawer.openButton props) = true ->
  match Js.get (Drawer.openButtonProps props) with
  | Some bag =>
      IconButton.onClick bag = Absent /\
      Js.or_default false (IconButton.disabled bag)
      || Js.or_default false (IconButton.loading bag) = false
  | None => True
  end ->
  Drawer.interact props Drawer.TriggerClick s =
  Drawer.handleDrawerToggle props true s.
Proof.
  intros Hbutton Hbag.
  destruct (Js.get (Drawer.openButtonProps props)) as [bag|] eqn:Hget.
  - destruct Hbag as [Hclick Henabled].
    destruct (trigger_of_bag props bag (Drawer.hooks s) Hget Hbutton)
      as (b & Hb & Hrun & _).
    unfold Drawer.interact, Drawer.view. rewrite Hb. cbv beta iota.
    rewrite Hrun, Henabled, Hclick. reflexivity.
  - unfold Drawer.interact, Drawer.view, Drawer.Drawer. cbn [Drawer.trigger].
    unfold Drawer.openButton_of. rewrite Hbutton.
    unfold Drawer.triggerProps. rewrite Hget. reflexivity.
Qed.

(** The close button and the backdrop are the close request. *)
Lemma dismiss_and_backdrop_request_close props s :
  Drawer.interact props Drawer.BackdropClose s =
    Drawer.handleDrawerToggle props false s /\
  (Drawer.closeButton_of props = true ->
   Drawer.interact props Drawer.DismissClick s =
     Drawer.handleDrawerToggle props false s).
Proof.
  split; [reflexivity|]. intros Hbutton.
  unfold Drawer.interact, Drawer.view, Drawer.Drawer.
  cbn [Drawer.panel Drawer.closeControl]. rewrite Hbutton. reflexivity.
Qed.

(** C9. Let [openButtonProps] be given and the trigger be rendered.  If the
    bag has an [onClick] key, a click on the trigger, when the bag leaves the
    button enabled, runs the caller's [onClick] (nothing, if the key holds
    [undefined]) and nothing else; a trigger that the bag disables (through
    [disabled] or [loading]) cannot be activated and its click runs nothing.
    Either way the hook cells are as before, so the panel does not open, and
    the caller's world is what that [onClick] left, [onOpen] playing no
    part.  If the bag has an [aria-label] key, the trigger carries the bag's
    label in place of ["Open drawer"]. *)
Theorem own_onClick_replaces_open_request props bag s :
  Js.get (Drawer.openButtonProps props) = Some bag ->
  Js.or_default true (Drawer.openButton props) = true ->
  (Js.has_key (IconButton.onClick bag) = true ->
     Drawer.interact props Drawer.TriggerClick s =
       (if Js.or_default false (IconButton.disabled bag)
           || Js.or_default false (IconButton.loading bag)
        then (s, Normal tt)
        else match Js.get (IconButton.onClick bag) with
             | Some onClick => Drawer.caller onClick s
             | None => (s, Normal tt)
             end) /\
     Drawer.hooks (fst (Drawer.interact props Drawer.TriggerClick s)) =
       Drawer.hooks s /\
     (Drawer.world (fst (Drawer.interact props Drawer.TriggerClick s)),
      snd (Drawer.interact props Drawer.TriggerClick s)) =
       (if Js.or_default false (IconButton.disabled bag)
           || Js.or_default false (IconButton.loading bag)
        then (Drawer.world s, Normal tt)
        else match Js.get (IconButton.onClick bag) with
             | Some onClick => onClick (Drawer.world s)
             | None => (Drawer.world s, Normal tt)
             end)) /\
  (Js.has_key (IconButton.aria_label bag) = true ->
     option_map IconButton.btn_aria_label
       (Drawer.trigger (Drawer.view props s)) =
     Some (Js.get (IconButton.aria_label bag))).
Proof.
  intros Hbag Hbutton.
  destruct (trigger_of_bag props bag (Drawer.hooks s) Hbag Hbutton)
    as (b & Hb & Hclick & Hlabel).
  split.
  - intros Hkey.
    assert (Hrun : Drawer.interact props Drawer.TriggerClick s =
      (if Js.or_default false (IconButton.disabled bag)
          || Js.or_default false (IconButton.loading bag)
       then (s, Normal tt)
       else match Js.get (IconButton.onClick bag) with
            | Some onClick => Drawer.caller onClick s
            | None => (s, Normal tt)
            end)).
    { unfold Drawer.interact, Drawer.view. rewrite Hb. cbv beta iota.
      rewrite Hclick.
      destruct (Js.or_default false (IconButton.disabled bag)
                || Js.or_default false (IconButton.loading bag));
        [reflexivity|].
      destruct (IconButton.onClick bag); [discriminate | reflexivity | reflexivity]. }
    rewrite Hrun. split; [reflexivity|].
    destruct (Js.or_default false (IconButton.disabled bag)
              || Js.or_default false (IconButton.loading bag));
      [split; reflexivity|].
    destruct (Js.get (IconButton.onClick bag)) as [f|].
    + destruct (caller_keeps_hooks f s) as (Hh & Hw & Hc).
      split; [exact Hh|]. rewrite Hw, Hc.
      destruct (f (Drawer.world s)); reflexivity.
    + split; reflexivity.
  - intros Hkey. unfold Drawer.view. rewrite Hb. cbn [option_map].
    rewrite Hlabel.
    destruct (IconButton.aria_label bag); [discriminate | reflexivity | reflexivity].
Qed.

End Trigger.

Lemma own_onClick_replaces_open_request_witness :
  let s0 := Drawer.mount "r0" Sample.own_click [] in
  let after := Drawer.interact Sample.own_click Drawer.TriggerClick s0 in
  Js.or_default true (Drawer.openButton Sample.own_click) = true /\
  Drawer.drawerOpen (Drawer.hooks (fst after)) = false /\
  (Drawer.world (fst after), snd after) = (["clicked"], Normal tt) /\
  option_map IconButton.btn_aria_label
    (Drawer.trigger (Drawer.view Sample.own_click s0)) =
  Some (Some "Show details").
Proof.
  cbv zeta.
  destruct (own_onClick_replaces_open_request Sample.own_click
              {| IconButton.variant := Absent; IconButton.color := Absent;
                 IconButton.content := Given (Text "Open Drawer");
                 IconButton.startIcon := Absent; IconButton.endIcon := Absent;
                 IconButton.loading := Absent; IconButton.disabled := Absent;
                 IconButton.onClick := Given (Sample.logging "clicked");
                 IconButton.size := Absent;
                 IconButton.aria_label := Given "Show details" |}
              (Drawer.mount "r0" Sample.own_click [])
              eq_refl eq_refl) as (Hclick & Hlabel).
  destruct (Hclick eq_refl) as (_ & Hhooks & Hworld).
  split; [reflexivity | ].
  split; [exact (f_equal Drawer.drawerOpen Hhooks) | ].
  split; [exact Hworld | exact (Hlabel eq_refl)].
Defined.

(** The same trigger with [disabled: true]: the click runs nothing at all. *)
Example disabled_trigger_runs_nothing :
  let s0 := Drawer.mount "r0" Sample.own_click_disabled [] in
  Drawer.interact Sample.own_click_disabled Drawer.TriggerClick s0 =
  (s0, Normal tt).
Proof. reflexivity. Qed.

(** ** The Drawer inside the NavBar *)

Section Menu.

Context {World Exn : Type}.
Implicit Types (props : NavBar.Props World Exn).

(** C10. With the menu shown ([showMenu] true or left out), whatever
    [drawerProps] holds, the NavBar renders a Drawer whose props have
    [open: false], [openButton: true] and the menu button's
    [openButtonProps]; so the Drawer mounts closed, and renders a trigger
    with the menu icon, the text variant, the large size, the label
    ["Open navigation menu"] and the colour chosen from the bar's colour,
    on which a click is the open request. *)
Theorem navbar_menu_drawer_starts_closed props id (w : World) (h : Drawer.Hooks) :
  Js.or_default true (NavBar.showMenu props) = true ->
  let color := Js.or_default NavBar.Primary (NavBar.color props) in
  exists drawer,
    NavBar.menu (NavBar.NavBar props) = Some drawer /\
    Drawer.open drawer = Given false /\
    Drawer.openButton drawer = Given true /\
    Drawer.openButtonProps drawer = Given (NavBar.menuButtonProps color) /\
    Drawer.drawerOpen (Drawer.hooks (Drawer.mount id drawer w)) = false /\
    exists b,
      Drawer.trigger (Drawer.Drawer drawer h) = Some b /\
      IconButton.btn_children b = Some MenuIcon /\
      IconButton.btn_variant b = IconButton.TextVariant /\
      IconButton.btn_size b = IconButton.Large /\
      IconButton.btn_aria_label b = Some "Open navigation menu" /\
      IconButton.btn_color b =
        (if NavBar.is_primary color
         then IconButton.Secondary
         else IconButton.Primary) /\
      forall s, IconButton.click b s = Drawer.handleDrawerToggle drawer true s.
Proof.
  intros Hshow. cbv zeta. unfold NavBar.NavBar. cbn [NavBar.menu].
  rewrite Hshow. eexists. split; [reflexivity|].
  repeat split.
  eexists. repeat split.
Qed.

End Menu.

Lemma navbar_menu_drawer_starts_closed_witness :
  Js.or_default true (NavBar.showMenu Sample.plain_navbar) = true /\
  exists drawer,
    NavBar.menu (NavBar.NavBar Sample.plain_navbar) = Some drawer /\
    Drawer.open drawer = Given false /\
    Drawer.openButton drawer = Given true /\
    Drawer.drawerOpen (Drawer.hooks (Drawer.mount "r0" drawer [])) = false.
Proof.
  split; [reflexivity | ].
  destruct (navbar_menu_drawer_starts_closed Sample.plain_navbar "r0" []
              {| Drawer.drawerOpen := false; Drawer.titleId := "r0";
                 Drawer.syncDeps := Some false |} eq_refl)
    as (drawer & Hmenu & Hopen & Hbutton & _ & Hclosed & _).
  exists drawer. repeat split; assumption.
Defined.

(** A click on the NavBar's menu button opens its Drawer. *)
Example navbar_menu_opens :
  match NavBar.menu (NavBar.NavBar Sample.plain_navbar) with
  | Some drawer =>
      let s0 := Drawer.mount "r0" drawer [] in
      let s1 := fst (Drawer.interact drawer Drawer.TriggerClick s0) in
      Drawer.mui_open (Drawer.panel (Drawer.view drawer s0)) = false /\
      Drawer.mui_open (Drawer.panel (Drawer.view drawer s1)) = true
  | None => False
  end.
Proof. cbn. split; reflexivity. Qed.

(** Scenario C: with [closeButton=false] there is no close button; closing
    through the backdrop hides the panel and logs one [onClose]. *)
Example scenario_C :
  let props :=
    {| Drawer.open := Given false;
       Drawer.onClose := Given (Sample.logging "Drawer closed");
       Drawer.onOpen := Absent;
       Drawer.title := Given "No Close Button";
       Drawer.content := Absent;
       Drawer.openButton := Given true;
       Drawer.closeButton := Given false;
       Drawer.openButtonProps := Absent;
       Drawer.position := Absent;
       Drawer.width := Absent |} in
  let s0 := Drawer.mount "r0" props [] in
  let s1 := fst (Drawer.interact props Drawer.TriggerClick s0) in
  let s2 := fst (Drawer.interact props Drawer.BackdropClose s1) in
  Drawer.closeControl (Drawer.panel (Drawer.view props s1)) = None /\
  Drawer.mui_open (Drawer.panel (Drawer.view props s1)) = true /\
  Drawer.mui_open (Drawer.panel (Drawer.view props s2)) = false /\
  Drawer.world s2 = ["Drawer closed"].
Proof. cbv zeta. repeat split. Qed.

(** * Further properties *)

(** ** The life of one Drawer instance *)

Section Lifetime.

Context {World Exn : Type}.
Implicit Types (props : Drawer.Props World Exn) (s : Drawer.Store World).
Implicit Types (evs : list (Drawer.Event World Exn)).

(** A render changes neither the caller's world nor the identifier, and its
    effect never throws. *)
Lemma commitEffects_quiet props s :
  Drawer.world (fst (Drawer.commitEffects props s)) = Drawer.world s /\
  Drawer.titleId (Drawer.hooks (fst (Drawer.commitEffects props s))) =
    Drawer.titleId (Drawer.hooks s) /\
  snd (Drawer.commitEffects props s) = Normal tt.
Proof.
  unfold Drawer.commitEffects.
  destruct (Drawer.depsChanged (Drawer.syncDeps (Drawer.hooks s))
              (Drawer.open_of props)); repeat split.
Qed.

(** The handler on a rendered button is the open or close request, a
    callback of the caller, or nothing; so an interaction writes at most the
    visibility cell of the hooks. *)
Lemma interact_hooks props i s :
  Drawer.hooks (fst (Drawer.interact props i s)) = Drawer.hooks s \/
  exists b,
    Drawer.hooks (fst (Drawer.interact props i s)) =
    Drawer.write_drawerOpen b (Drawer.hooks s).
Proof.
  destruct i.
  - destruct (Js.or_default true (Drawer.openButton props)) eqn:Hbutton.
    + destruct (Js.get (Drawer.openButtonProps props)) as [bag|] eqn:Hbag.
      * destruct (trigger_of_bag props bag (Drawer.hooks s) Hbag Hbutton)
          as (b & Hb & Hclick & _).
        unfold Drawer.interact, Drawer.view. rewrite Hb. cbv beta iota.
        rewrite Hclick.
        destruct (Js.or_default false (IconButton.disabled bag)
                  || Js.or_default false (IconButton.loading bag));
          [left; reflexivity|].
        destruct (IconButton.onClick bag) as [| |f];
          cbn [Js.map_given Js.spread Js.get Js.call_opt].
        -- right. exists true. rewrite handleDrawerToggle_run. reflexivity.
        -- left. reflexivity.
        -- left. apply caller_keeps_hooks.
      * right. exists true.
        rewrite default_trigger_requests_open.
        -- rewrite handleDrawerToggle_run. reflexivity.
        -- exact Hbutton.
        -- rewrite Hbag. exact I.
    + left. unfold Drawer.interact, Drawer.view, Drawer.Drawer.
      cbn [Drawer.trigger]. unfold Drawer.openButton_of.
      rewrite Hbutton. reflexivity.
  - destruct (Drawer.closeButton_of props) eqn:Hbutton.
    + right. exists false.
      rewrite (proj2 (dismiss_and_backdrop_request_close props s) Hbutton).
      rewrite handleDrawerToggle_run. reflexivity.
    + left. unfold Drawer.interact, Drawer.view, Drawer.Drawer.
      cbn [Drawer.panel Drawer.closeControl]. rewrite Hbutton. reflexivity.
  - right. exists false.
    rewrite (proj1 (dismiss_and_backdrop_request_close props s)).
    rewrite handleDrawerToggle_run. reflexivity.
Qed.

Lemma interact_keeps_id_and_deps props i s :
  Drawer.titleId (Drawer.hooks (fst (Drawer.interact props i s))) =
    Drawer.titleId (Drawer.hooks s) /\
  Drawer.syncDeps (Drawer.hooks (fst (Drawer.interact props i s))) =
    Drawer.syncDeps (Drawer.hooks s).
Proof.
  destruct (interact_hooks props i s) as [Heq | [b Heq]]; rewrite Heq;
    split; reflexivity.
Qed.

(** Renders only, from a store whose cell holds the [open] last synced. *)
Lemma views_from_open (later : list (Drawer.Props World Exn)) : forall s b,
  Drawer.syncDeps (Drawer.hooks s) = Some b ->
  Drawer.drawerOpen (Drawer.hooks s) = b ->
  map (fun v => Drawer.mui_open (Drawer.panel v)) (Drawer.views_from s later)
  = map Drawer.open_of later.
Proof.
  induction later as [|p ps IH]; intros s b Hdeps Hcell; [reflexivity|].
  cbn [Drawer.views_from map].
  assert (Hafter :
    Drawer.drawerOpen (Drawer.hooks (Drawer.rerender p s)) = Drawer.open_of p).
  { unfold Drawer.rerender, Drawer.commitEffects. rewrite Hdeps.
    cbn [Drawer.depsChanged].
    destruct (Bool.eqb b (Drawer.open_of p)) eqn:Heq; cbn.
    - apply Bool.eqb_prop in Heq. congruence.
    - reflexivity. }
  rewrite (IH (Drawer.rerender p s) (Drawer.open_of p)
             (rerender_records_deps p s) Hafter).
  unfold Drawer.view. cbn [Drawer.Drawer Drawer.panel Drawer.mui_open].
  rewrite Hafter. reflexivity.
Qed.

Lemma run_rerenders_world (later : list (Drawer.Props World Exn)) :
  forall props s,
  Drawer.world (snd (Drawer.run props s (map Drawer.Rerender later))) =
  Drawer.world s.
Proof.
  induction later as [|p ps IH]; intros props s; [reflexivity|].
  cbn [map Drawer.run]. rewrite IH.
  unfold Drawer.rerender. apply commitEffects_quiet.
Qed.

(** X1. As long as the user does nothing, the panel shows what the parent
    passes: over the renders of one instance, mounted and then rendered again
    any number of times, the visibility of each render is the [open] of that
    render (false when left out), and no render touches the caller's world,
    so neither callback is ever called by rendering. *)
Theorem renders_show_parent_open id props0
    (later : list (Drawer.Props World Exn)) (w : World) :
  map (fun v => Drawer.mui_open (Drawer.panel v))
      (Drawer.renders id props0 later w)
  = map Drawer.open_of (props0 :: later) /\
  Drawer.world
    (snd (Drawer.run props0 (Drawer.mount id props0 w)
            (map Drawer.Rerender later))) = w.
Proof.
  split.
  - unfold Drawer.renders. cbn [map].
    rewrite (views_from_open later (Drawer.mount id props0 w)
               (Drawer.open_of props0) (mount_records_deps id props0 w)
               eq_refl).
    reflexivity.
  - rewrite run_rerenders_world. reflexivity.
Qed.

(** X2. What the user asked for outlives the parent's renders: after a
    request, a render whose [open] is the one of the previous render changes
    nothing, whatever else differs in the props, and the panel keeps the
    requested visibility, also when that is not the [open] being passed. *)
Theorem request_survives_render_with_same_open props props' s
    (r : Drawer.Request) :
  Drawer.Rendered props s ->
  Drawer.open_of props' = Drawer.open_of props ->
  let s1 := Drawer.rerender props (fst (Drawer.request props r s)) in
  Drawer.rerender props' s1 = s1 /\
  Drawer.mui_open (Drawer.panel (Drawer.view props' (Drawer.rerender props' s1)))
    = Drawer.wants_open r.
Proof.
  intros Hrendered Hsame. cbv zeta.
  assert (Hdeps := Rendered_deps props s Hrendered).
  rewrite (request_then_render props r s Hdeps).
  assert (Hkeep : forall s1,
            Drawer.syncDeps (Drawer.hooks s1) = Some (Drawer.open_of props) ->
            Drawer.rerender props' s1 = s1).
  { intros s1 H1. apply rerender_same_open. rewrite Hsame. exact H1. }
  rewrite Hkeep by exact Hdeps.
  split; reflexivity.
Qed.

Lemma run_keeps_id id evs : forall props s,
  Drawer.Rendered props s ->
  Drawer.titleId (Drawer.hooks s) = id ->
  Drawer.Rendered (fst (Drawer.run props s evs)) (snd (Drawer.run props s evs)) /\
  Drawer.titleId (Drawer.hooks (snd (Drawer.run props s evs))) = id.
Proof.
  induction evs as [|ev evs IH]; intros props s Hrendered Hid.
  - split; assumption.
  - destruct ev as [props'|i]; cbn [Drawer.run]; apply IH.
    + apply (Drawer.Rendered_rerender props props' s Hrendered).
    + unfold Drawer.rerender.
      rewrite (proj1 (proj2 (commitEffects_quiet props' s))). exact Hid.
    + apply Drawer.Rendered_interact. exact Hrendered.
    + unfold Drawer.rerender.
      rewrite (proj1 (proj2 (commitEffects_quiet props
                               (fst (Drawer.interact props i s))))).
      rewrite (proj1 (interact_keeps_id_and_deps props i s)). exact Hid.
Qed.

(** X3. The identifier handed out at mount is the identifier of the
    instance for life: after any run of renders and user actions the hooks
    still hold it, so whenever the latest props have a non-empty title the
    panel is labelled by that identifier and the heading carries it. *)
Theorem title_id_is_stable id props0 (w : World) evs :
  let props := fst (Drawer.run props0 (Drawer.mount id props0 w) evs) in
  let s := snd (Drawer.run props0 (Drawer.mount id props0 w) evs) in
  let p := Drawer.panel (Drawer.view props s) in
  Drawer.titleId (Drawer.hooks s) = id /\
  Drawer.aria_labelledby (Drawer.mui_PaperProps p) =
    (if Js.truthy (Js.get (Drawer.title props)) then Some id else None) /\
  option_map Drawer.heading_id (Drawer.heading p) =
    (if Js.truthy (Js.get (Drawer.title props)) then Some id else None).
Proof.
  cbv zeta.
  destruct (run_keeps_id id evs props0 (Drawer.mount id props0 w)
              (Drawer.Rendered_mount id props0 w) eq_refl) as [_ Hid].
  split; [exact Hid|].
  unfold Drawer.view, Drawer.Drawer.
  cbn [Drawer.panel Drawer.mui_PaperProps Drawer.aria_labelledby Drawer.heading].
  rewrite Hid.
  destruct (Js.get (Drawer.title
              (fst (Drawer.run props0 (Drawer.mount id props0 w) evs))))
    as [t|]; cbn [Js.truthy].
  - destruct (negb (String.eqb t "")); split; reflexivity.
  - split; reflexivity.
Qed.

End Lifetime.

Lemma request_survives_render_with_same_open_witness :
  let s0 := Drawer.mount "r0" (Sample.basic false) [] in
  let s1 := Drawer.rerender (Sample.basic false)
              (fst (Drawer.request (Sample.basic false) Drawer.RequestOpen s0)) in
  Drawer.Rendered (Sample.basic false) s0 /\
  Drawer.open_of Sample.own_click = Drawer.open_of (Sample.basic false) /\
  Drawer.rerender Sample.own_click s1 = s1 /\
  Drawer.mui_open
    (Drawer.panel (Drawer.view Sample.own_click
                     (Drawer.rerender Sample.own_click s1))) = true.
Proof.
  cbv zeta.
  split; [apply Drawer.Rendered_mount | ].
  split; [reflexivity | ].
  exact (request_survives_render_with_same_open
           (Sample.basic false) Sample.own_click
           (Drawer.mount "r0" (Sample.basic false) [])
           Drawer.RequestOpen
           (Drawer.Rendered_mount "r0" (Sample.basic false) [])
           eq_refl).
Defined.

(** ** The two buttons of the Drawer *)

Section Buttons.

Context {World Exn : Type}.
Implicit Types (props : Drawer.Props World Exn) (s : Drawer.Store World).
Implicit Types (bag : IconButton.Props (Drawer.Callback World Exn)).
Implicit Types (h : Drawer.Hooks).

(** X4. The close button is not open to the caller: when it is rendered it
    is the text variant with the close icon and the label ["Close drawer"],
    neither disabled nor loading; a click on it does what closing through
    the backdrop does, which is the close request, and leaves the panel
    closed. *)
Theorem close_button_is_the_close_request props h s :
  Drawer.closeButton_of props = true ->
  exists b,
    Drawer.closeControl (Drawer.panel (Drawer.Drawer props h)) = Some b /\
    IconButton.btn_variant b = IconButton.TextVariant /\
    IconButton.btn_children b = Some CloseIcon /\
    IconButton.btn_aria_label b = Some "Close drawer" /\
    IconButton.btn_disabled b = false /\
    IconButton.btn_loading b = false /\
    Drawer.interact props Drawer.DismissClick s =
      Drawer.interact props Drawer.BackdropClose s /\
    Drawer.interact props Drawer.DismissClick s =
      Drawer.handleDrawerToggle props false s /\
    Drawer.drawerOpen
      (Drawer.hooks (fst (Drawer.interact props Drawer.DismissClick s))) = false.
Proof.
  intros Hbutton.
  destruct (dismiss_and_backdrop_request_close props s) as [Hbackdrop Hdismiss].
  specialize (Hdismiss Hbutton).
  unfold Drawer.Drawer. cbn [Drawer.panel Drawer.closeControl].
  rewrite Hbutton. eexists. split; [reflexivity|].
  do 5 (split; [reflexivity|]).
  split; [congruence|]. split; [exact Hdismiss|].
  rewrite Hdismiss, handleDrawerToggle_run. reflexivity.
Qed.

(** X5. An [openButtonProps] without an [onClick] key changes how the
    trigger looks and whether it can be clicked, not what a click does: the
    button gets the bag's variant, colour, size, icons, content, [disabled]
    and [loading] (with the IconButton's defaults for what the bag leaves
    out); a click on it is the open request, unless the bag disables the
    button through [disabled] or [loading], and then the click runs nothing
    and the panel stays as it is. *)
Theorem display_options_keep_open_request props bag s :
  Js.get (Drawer.openButtonProps props) = Some bag ->
  Js.or_default true (Drawer.openButton props) = true ->
  IconButton.onClick bag = Absent ->
  let inert :=
    Js.or_default false (IconButton.disabled bag)
    || Js.or_default false (IconButton.loading bag) in
  Drawer.interact props Drawer.TriggerClick s =
    (if inert then (s, Normal tt)
     else Drawer.handleDrawerToggle props true s) /\
  Drawer.drawerOpen
    (Drawer.hooks (fst (Drawer.interact props Drawer.TriggerClick s))) =
    (if inert then Drawer.drawerOpen (Drawer.hooks s) else true) /\
  exists b,
    Drawer.trigger (Drawer.view props s) = Some b /\
    IconButton.btn_variant b =
      Js.or_default IconButton.Contained (IconButton.variant bag) /\
    IconButton.btn_color b =
      Js.or_default IconButton.Primary (IconButton.color bag) /\
    IconButton.btn_size b =
      Js.or_default IconButton.Medium (IconButton.size bag) /\
    IconButton.btn_children b = Js.get (IconButton.content bag) /\
    IconButton.btn_startIcon b = Js.get (IconButton.startIcon bag) /\
    IconButton.btn_endIcon b = Js.get (IconButton.endIcon bag) /\
    IconButton.btn_disabled b =
      Js.or_default false (IconButton.disabled bag) /\
    IconButton.btn_loading b =
      Js.or_default false (IconButton.loading bag).
Proof.
  intros Hbag Hbutton Hclick. cbv zeta.
  assert (Hrun : Drawer.interact props Drawer.TriggerClick s =
    (if Js.or_default false (IconButton.disabled bag)
        || Js.or_default false (IconButton.loading bag)
     then (s, Normal tt)
     else Drawer.handleDrawerToggle props true s)).
  { destruct (trigger_of_bag props bag (Drawer.hooks s) Hbag Hbutton)
      as (b & Hb & Hb_click & _).
    unfold Drawer.interact, Drawer.view. rewrite Hb. cbv beta iota.
    rewrite Hb_click, Hclick. reflexivity. }
  split; [exact Hrun|].
  split.
  { rewrite Hrun.
    destruct (Js.or_default false (IconButton.disabled bag)
              || Js.or_default false (IconButton.loading bag));
      [reflexivity|].
    rewrite handleDrawerToggle_run. reflexivity. }
  unfold Drawer.view, Drawer.Drawer. cbn [Drawer.trigger].
  unfold Drawer.openButton_of. rewrite Hbutton.
  eexists. split; [reflexivity|].
  unfold Drawer.triggerProps. rewrite Hbag.
  cbn [option_map IconButton.spread_opt].
  unfold IconButton.IconButton, IconButton.spread_props, IconButton.map_onClick.
  cbn [IconButton.btn_variant IconButton.btn_color IconButton.btn_size
       IconButton.btn_children IconButton.btn_startIcon IconButton.btn_endIcon
       IconButton.btn_disabled IconButton.btn_loading
       IconButton.variant IconButton.color IconButton.size IconButton.content
       IconButton.startIcon IconButton.endIcon IconButton.disabled
       IconButton.loading].
  destruct (IconButton.variant bag), (IconButton.color bag),
    (IconButton.size bag), (IconButton.content bag),
    (IconButton.startIcon bag), (IconButton.endIcon bag),
    (IconButton.disabled bag), (IconButton.loading bag);
    repeat split.
Qed.

End Buttons.

Lemma close_button_is_the_close_request_witness :
  let s := Drawer.rerender (Sample.basic false)
             (fst (Drawer.request (Sample.basic false) Drawer.RequestOpen
                     (Drawer.mount "r0" (Sample.basic false) []))) in
  Drawer.closeButton_of (Sample.basic false) = true /\
  Drawer.drawerOpen (Drawer.hooks s) = true /\
  Drawer.drawerOpen
    (Drawer.hooks
       (fst (Drawer.interact (Sample.basic false) Drawer.DismissClick s)))
    = false.
Proof.
  cbv zeta. split; [reflexivity | split; [reflexivity | ]].
  destruct (close_button_is_the_close_request (Sample.basic false)
              {| Drawer.drawerOpen := true; Drawer.titleId := "r0";
                 Drawer.syncDeps := Some false |}
              (Drawer.rerender (Sample.basic false)
                 (fst (Drawer.request (Sample.basic false) Drawer.RequestOpen
                         (Drawer.mount "r0" (Sample.basic false) []))))
              eq_refl)
    as (b & _ & _ & _ & _ & _ & _ & _ & _ & Hclosed).
  exact Hclosed.
Defined.

Lemma display_options_keep_open_request_witness :
  let s0 := Drawer.mount "r0" (Sample.basic false) [] in
  let s0' := Drawer.mount "r0" Sample.busy_trigger [] in
  (Js.or_default true (Drawer.openButton (Sample.basic false)) = true /\
   Drawer.interact (Sample.basic false) Drawer.TriggerClick s0 =
     Drawer.handleDrawerToggle (Sample.basic false) true s0 /\
   Drawer.drawerOpen
     (Drawer.hooks
        (fst (Drawer.interact (Sample.basic false) Drawer.TriggerClick s0)))
     = true) /\
  (Js.or_default true (Drawer.openButton Sample.busy_trigger) = true /\
   Drawer.interact Sample.busy_trigger Drawer.TriggerClick s0' =
     (s0', Normal tt)).
Proof.
  cbv zeta. split.
  - split; [reflexivity | ].
    destruct (display_options_keep_open_request (Sample.basic false)
                {| IconButton.variant := Absent; IconButton.color := Absent;
                   IconButton.content := Given (Text "Open Drawer");
                   IconButton.startIcon := Absent; IconButton.endIcon := Absent;
                   IconButton.loading := Absent; IconButton.disabled := Absent;
                   IconButton.onClick := Absent; IconButton.size := Absent;
                   IconButton.aria_label := Absent |}
                (Drawer.mount "r0" (Sample.basic false) [])
                eq_refl eq_refl eq_refl) as (Hrun & Hopen & _).
    split; [exact Hrun | exact Hopen].
  - split; [reflexivity | ].
    exact (proj1 (display_options_keep_open_request Sample.busy_trigger
                    {| IconButton.variant := Given IconButton.Outlined;
                       IconButton.color := Absent;
                       IconButton.content := Given (Text "Open Drawer");
                       IconButton.startIcon := Absent;
                       IconButton.endIcon := Absent;
                       IconButton.loading := Given true;
                       IconButton.disabled := Absent;
                       IconButton.onClick := Absent;
                       IconButton.size := Absent;
                       IconButton.aria_label := Absent |}
                    (Drawer.mount "r0" Sample.busy_trigger [])
                    eq_refl eq_refl eq_refl)).
Defined.

(** ** IconButton on its own *)

Section IconButtonFacts.

Context {S E : Type}.
Implicit Types (props : IconButton.Props (Js.Eff S E unit)).

(** X6. What the caller of IconButton leaves out takes the defaults of the
    parameter list: variant contained, colour primary, size medium, not
    loading, not disabled.  A click runs the [onClick] of the props and
    nothing more when the button is neither disabled nor loading, and runs
    nothing when it is either; so a button that leaves both out is
    clickable, and one without [onClick] can be clicked without effect or
    error. *)
Theorem icon_button_defaults props :
  let b := IconButton.IconButton props in
  (Js.omitted (IconButton.variant props) ->
     IconButton.btn_variant b = IconButton.Contained) /\
  (Js.omitted (IconButton.color props) ->
     IconButton.btn_color b = IconButton.Primary) /\
  (Js.omitted (IconButton.size props) ->
     IconButton.btn_size b = IconButton.Medium) /\
  (Js.omitted (IconButton.loading props) -> IconButton.btn_loading b = false) /\
  (Js.omitted (IconButton.disabled props) -> IconButton.btn_disabled b = false) /\
  (forall s,
     IconButton.click b s =
     if Js.or_default false (IconButton.disabled props)
        || Js.or_default false (IconButton.loading props)
     then (s, Normal tt)
     else match Js.get (IconButton.onClick props) with
          | Some onClick => onClick s
          | None => (s, Normal tt)
          end) /\
  (Js.omitted (IconButton.disabled props) ->
   Js.omitted (IconButton.loading props) ->
   forall onClick, IconButton.onClick props = Given onClick ->
   forall s, IconButton.click b s = onClick s).
Proof.
  cbv zeta. unfold Js.omitted, IconButton.IconButton, IconButton.click,
    IconButton.btn_inert.
  cbn [IconButton.btn_variant IconButton.btn_color IconButton.btn_size
       IconButton.btn_loading IconButton.btn_disabled IconButton.btn_onClick].
  unfold Js.or_default.
  split; [intros H; rewrite H; reflexivity|].
  split; [intros H; rewrite H; reflexivity|].
  split; [intros H; rewrite H; reflexivity|].
  split; [intros H; rewrite H; reflexivity|].
  split; [intros H; rewrite H; reflexivity|].
  split.
  - intros s.
    destruct (match Js.get (IconButton.disabled props) with
              | Some a => a
              | None => false
              end
              || match Js.get (IconButton.loading props) with
                 | Some a => a
                 | None => false
                 end); [reflexivity|].
    destruct (Js.get (IconButton.onClick props)); reflexivity.
  - intros Hdisabled Hloading onClick H s.
    rewrite Hdisabled, Hloading, H. reflexivity.
Qed.

End IconButtonFacts.

Lemma icon_button_defaults_witness :
  let b := IconButton.IconButton Sample.bare_button in
  let save := IconButton.IconButton (Sample.logging_button Absent Absent) in
  Js.omitted (IconButton.variant Sample.bare_button) /\
  Js.omitted (IconButton.onClick Sample.bare_button) /\
  IconButton.btn_variant b = IconButton.Contained /\
  IconButton.btn_color b = IconButton.Primary /\
  IconButton.btn_size b = IconButton.Medium /\
  IconButton.btn_loading b = false /\
  IconButton.btn_disabled b = false /\
  IconButton.click b ["before"] = (["before"], Normal tt) /\
  IconButton.click save [] = (["Saved!"], Normal tt).
Proof.
  cbv zeta.
  destruct (icon_button_defaults Sample.bare_button)
    as (Hvariant & Hcolor & Hsize & Hloading & Hdisabled & Hclick & _).
  destruct (icon_button_defaults (Sample.logging_button Absent Absent))
    as (_ & _ & _ & _ & _ & _ & Hsave).
  split; [reflexivity | split; [reflexivity | ]].
  split; [exact (Hvariant eq_refl) | ].
  split; [exact (Hcolor eq_refl) | ].
  split; [exact (Hsize eq_refl) | ].
  split; [exact (Hloading eq_refl) | ].
  split; [exact (Hdisabled eq_refl) | ].
  split; [exact (Hclick ["before"]) | ].
  exact (Hsave eq_refl eq_refl (Sample.logging "Saved!") eq_refl []).
Defined.

(** A disabled and a loading button do not run their [onClick]. *)
Example inert_buttons_run_nothing :
  IconButton.click
    (IconButton.IconButton (Sample.logging_button (Given true) Absent)) []
    = ([], Normal tt) /\
  IconButton.click
    (IconButton.IconButton (Sample.logging_button Absent (Given true))) []
    = ([], Normal tt).
Proof. split; reflexivity. Qed.

(** ** The NavBar *)

Section Bar.

Context {World Exn : Type}.
Implicit Types (props : NavBar.Props World Exn).
Implicit Types (d : NavBar.DrawerRest World Exn).

(** X7. The bar always holds exactly one growing element before the
    children: the title when it is a non-empty string, the empty spacer box
    when the title is left out or is the empty string.  The children are
    passed on as they are. *)
Theorem navbar_title_or_spacer props :
  let bar := NavBar.NavBar props in
  (NavBar.appbar_title bar <> None <-> NavBar.spacer bar = false) /\
  match Js.get (NavBar.title props) with
  | Some t =>
      if String.eqb t ""
      then NavBar.appbar_title bar = None /\ NavBar.spacer bar = true
      else NavBar.appbar_title bar = Some t /\ NavBar.spacer bar = false
  | None => NavBar.appbar_title bar = None /\ NavBar.spacer bar = true
  end /\
  NavBar.appbar_children bar = Js.get (NavBar.children props).
Proof.
  cbv zeta. unfold NavBar.NavBar.
  cbn [NavBar.appbar_title NavBar.spacer NavBar.appbar_children].
  destruct (Js.get (NavBar.title props)) as [t|]; cbn [Js.truthy].
  - destruct (String.eqb t ""); cbn [negb].
    + split; [split; [intros H; now elim H | discriminate] | repeat split].
    + split; [split; [reflexivity | discriminate] | repeat split].
  - split; [split; [intros H; now elim H | discriminate] | repeat split].
Qed.

(** X8. What the caller of NavBar leaves out takes the defaults: position
    static, colour primary, menu shown.  With [showMenu] false no Drawer is
    rendered at all, whatever [drawerProps] holds. *)
Theorem navbar_defaults props :
  let bar := NavBar.NavBar props in
  (Js.omitted (NavBar.position props) ->
     NavBar.appbar_position bar = NavBar.Static) /\
  (Js.omitted (NavBar.color props) ->
     NavBar.appbar_color bar = NavBar.Primary) /\
  (Js.omitted (NavBar.showMenu props) -> NavBar.menu bar <> None) /\
  (NavBar.showMenu props = Given false -> NavBar.menu bar = None) /\
  (NavBar.menu bar <> None <->
     Js.or_default true (NavBar.showMenu props) = true).
Proof.
  cbv zeta. unfold Js.omitted, NavBar.NavBar, Js.or_default.
  cbn [NavBar.appbar_position NavBar.appbar_color NavBar.menu].
  split; [intros H; rewrite H; reflexivity|].
  split; [intros H; rewrite H; reflexivity|].
  split; [intros H; rewrite H; discriminate|].
  split; [intros H; rewrite H; reflexivity|].
  destruct (Js.get (NavBar.showMenu props)) as [[|]|]; split; intros H;
    first [reflexivity | discriminate | now elim H].
Qed.

(** X9. The menu button never has the colour of the bar it sits on: on a
    primary bar it is secondary, on every other bar it is primary. *)
Theorem menu_button_colour_differs_from_bar props (h : Drawer.Hooks) :
  Js.or_default true (NavBar.showMenu props) = true ->
  let bar := NavBar.NavBar props in
  exists drawer b,
    NavBar.menu bar = Some drawer /\
    Drawer.trigger (Drawer.Drawer drawer h) = Some b /\
    NavBar.of_button_color (IconButton.btn_color b) <> NavBar.appbar_color bar /\
    (NavBar.appbar_color bar = NavBar.Primary ->
       IconButton.btn_color b = IconButton.Secondary) /\
    (NavBar.appbar_color bar <> NavBar.Primary ->
       IconButton.btn_color b = IconButton.Primary).
Proof.
  intros Hshow. cbv zeta. unfold NavBar.NavBar.
  cbn [NavBar.menu NavBar.appbar_color]. rewrite Hshow.
  eexists. eexists. split; [reflexivity|]. split; [reflexivity|].
  cbn.
  destruct (Js.or_default NavBar.Primary (NavBar.color props)); cbn;
    repeat split; try discriminate; try reflexivity;
    intros H; now elim H.
Qed.



End Bar.

Lemma navbar_defaults_witness :
  (Js.omitted (NavBar.position Sample.plain_navbar) /\
   Js.omitted (NavBar.color Sample.plain_navbar) /\
   Js.omitted (NavBar.showMenu Sample.plain_navbar) /\
   NavBar.appbar_position (NavBar.NavBar Sample.plain_navbar) = NavBar.Static /\
   NavBar.appbar_color (NavBar.NavBar Sample.plain_navbar) = NavBar.Primary /\
   NavBar.menu (NavBar.NavBar Sample.plain_navbar) <> None) /\
  (NavBar.showMenu Sample.no_menu = Given false /\
   NavBar.menu (NavBar.NavBar Sample.no_menu) = None).
Proof.
  destruct (navbar_defaults Sample.plain_navbar)
    as (Hposition & Hcolor & Hshow & _ & _).
  destruct (navbar_defaults Sample.no_menu) as (_ & _ & _ & Hhide & _).
  split.
  - do 3 (split; [reflexivity | ]).
    split; [exact (Hposition eq_refl) | ].
    split; [exact (Hcolor eq_refl) | exact (Hshow eq_refl)].
  - split; [reflexivity | exact (Hhide eq_refl)].
Defined.

Lemma menu_button_colour_differs_from_bar_witness :
  Js.or_default true (NavBar.showMenu Sample.plain_navbar) = true /\
  exists drawer b,
    NavBar.menu (NavBar.NavBar Sample.plain_navbar) = Some drawer /\
    Drawer.trigger
      (Drawer.Drawer drawer
         {| Drawer.drawerOpen := false; Drawer.titleId := "r0";
            Drawer.syncDeps := Some false |}) = Some b /\
    IconButton.btn_color b = IconButton.Secondary.
Proof.
  split; [reflexivity | ].
  destruct (menu_button_colour_differs_from_bar Sample.plain_navbar
              {| Drawer.drawerOpen := false; Drawer.titleId := "r0";
                 Drawer.syncDeps := Some false |} eq_refl)
    as (drawer & b & Hmenu & Htrigger & _ & Hprimary & _).
  exists drawer, b.
  split; [exact Hmenu | split; [exact Htrigger | exact (Hprimary eq_refl)]].
Defined.


(** The menu of the [right_navbar], opened and closed again: the hooks are
    back where they were and both callbacks of [drawerProps] ran, in that
    order. *)
Example right_menu_round_trip :
  match NavBar.menu (NavBar.NavBar Sample.right_navbar) with
  | Some drawer =>
      let s0 := Drawer.mount "r0" drawer [] in
      let s2 := snd (Drawer.run drawer s0
                       [Drawer.User Drawer.TriggerClick;
                        Drawer.User Drawer.DismissClick]) in
      Drawer.hooks s2 = Drawer.hooks s0 /\
      Drawer.world s2 = ["menu opened"; "menu closed"]
  | None => False
  end.
Proof. cbn. split; reflexivity. Qed.

(** ** Opening and closing again *)

Section RoundTrip.

Context {World Exn : Type}.
Implicit Types (props : Drawer.Props World Exn) (s : Drawer.Store World).

(** X11. Opening a closed panel and closing it again leaves the instance as
    it was: the hooks after the two requests are the hooks before them, and
    the caller's world has seen [onOpen] and then [onClose], also when
    [onOpen] threw. *)
Theorem open_then_close_restores_hooks props s :
  Drawer.Rendered props s ->
  Drawer.drawerOpen (Drawer.hooks s) = false ->
  let s2 := Drawer.requests props [Drawer.RequestOpen; Drawer.RequestClose] s in
  Drawer.hooks s2 = Drawer.hooks s /\
  Drawer.world s2 =
    fst (Drawer.notification props false
           (fst (Drawer.notification props true (Drawer.world s)))).
Proof.
  intros Hrendered Hclosed. cbv zeta.
  assert (Hdeps := Rendered_deps props s Hrendered).
  cbn [Drawer.requests].
  rewrite (request_then_render props Drawer.RequestOpen s Hdeps).
  rewrite request_then_render by exact Hdeps.
  cbn [Drawer.hooks Drawer.world Drawer.wants_open].
  split; [|reflexivity].
  rewrite write_drawerOpen_twice.
  destruct (Drawer.hooks s) as [cell id deps]. cbn in Hclosed.
  rewrite Hclosed. reflexivity.
Qed.

End RoundTrip.

Lemma open_then_close_restores_hooks_witness :
  let s0 := Drawer.mount "r0" Sample.fragile [] in
  let s2 := Drawer.requests Sample.fragile
              [Drawer.RequestOpen; Drawer.RequestClose] s0 in
  Drawer.Rendered Sample.fragile s0 /\
  Drawer.drawerOpen (Drawer.hooks s0) = false /\
  Drawer.hooks s2 = Drawer.hooks s0 /\
  Drawer.world s2 = ["opening"; "closing"].
Proof.
  cbv zeta.
  split; [apply Drawer.Rendered_mount | ].
  split; [reflexivity | ].
  exact (open_then_close_restores_hooks Sample.fragile
           (Drawer.mount "r0" Sample.fragile [])
           (Drawer.Rendered_mount "r0" Sample.fragile [])
           eq_refl).
Defined.
